(** * A shallow embedding of [cad_to_h5m/core.py]

    The Python module drives an external geometry kernel (Cubit) through a
    text-command interface.  We model

    - the kernel as an environment of query functions over the history of
      commands it has received (its only observable state here);
    - the process as a [world]: the command history, [sys.path], whether the
      binding was imported, whether the session was initialised, and the
      files written;
    - Python exceptions as an inductive [exn], and each function as a state
      and error monad over [world]. *)

From Stdlib Require Import String Ascii List ZArith Bool Lia.
Import ListNotations.
Open Scope string_scope.
Open Scope list_scope.
Set Warnings "-register-all".

(** ** Python exceptions raised by the module (with the spec's names) *)
Inductive exn :=
| InvalidOutputExtension   (* ValueError: h5m_filename must end with .h5m *)
| InvalidExoExtension      (* ValueError: exo_filename must end with .exo *)
| InvalidCubitExtension    (* ValueError: cubit_filename must end with .cub/.cub5 *)
| UnsupportedInputFormat   (* ValueError: not a step/sat file *)
| FileNotFound             (* FileNotFoundError *)
| KernelUnavailable        (* ImportError: import cubit failed *)
| TagTooLong               (* ValueError: material_tag > 27 characters *)
| IntParseError            (* ValueError raised by int() *)
| PyIndexError
| PyKeyError
| PyTypeError
| PyRuntimeError           (* dictionary changed size during iteration *)
| UnboundLocal.            (* UnboundLocalError *)

(** ** Strings *)
Definition dq : string := String (Ascii.ascii_of_nat 34) EmptyString.
Definition slash : ascii := Ascii.ascii_of_nat 47.
Definition dot : ascii := Ascii.ascii_of_nat 46.

(** [" ".join(xs)] and friends. *)
Fixpoint join (sep : string) (xs : list string) : string :=
  match xs with
  | [] => EmptyString
  | [x] => x
  | x :: xs' => x ++ sep ++ join sep xs'
  end.

(** [str(n)] for a Python int. *)
Definition digit_char (d : N) : ascii := Ascii.ascii_of_N (48 + d).

Fixpoint N_str_aux (fuel : nat) (n : N) (acc : string) : string :=
  match fuel with
  | O => acc
  | S f =>
      let acc' := String (digit_char (N.modulo n 10)) acc in
      if N.eqb (N.div n 10) 0 then acc' else N_str_aux f (N.div n 10) acc'
  end.

Definition N_str (n : N) : string := N_str_aux (S (N.size_nat n)) n EmptyString.

Definition Z_str (z : Z) : string :=
  match z with
  | Zneg p => "-" ++ N_str (Npos p)
  | _ => N_str (Z.to_N z)
  end.

(** [int(s)] on a decimal numeral with an optional sign.  (Python also
    accepts surrounding blanks and digit underscores; volume strings of this
    module are produced by [str] of a kernel int and have neither.) *)
Fixpoint digits_val (s : string) (acc : Z) : option Z :=
  match s with
  | EmptyString => Some acc
  | String c s' =>
      let n := Z.of_nat (Ascii.nat_of_ascii c) in
      if (48 <=? n)%Z && (n <=? 57)%Z then digits_val s' (acc * 10 + (n - 48))%Z
      else None
  end.

Definition py_int (s : string) : option Z :=
  match s with
  | EmptyString => None
  | String c s' =>
      if Ascii.eqb c "-"%char then
        match s' with EmptyString => None | _ => option_map Z.opp (digits_val s' 0) end
      else if Ascii.eqb c "+"%char then
        match s' with EmptyString => None | _ => digits_val s' 0 end
      else digits_val s 0
  end.

(** [s.endswith(suf)] *)
Definition ends_with (suf s : string) : bool :=
  (String.length suf <=? String.length s)%nat &&
  String.eqb (substring (String.length s - String.length suf) (String.length suf) s) suf.

(** [s.split(c)] *)
Fixpoint split_on (c : ascii) (s : string) : list string :=
  match s with
  | EmptyString => [EmptyString]
  | String c' s' =>
      if Ascii.eqb c c' then EmptyString :: split_on c s'
      else match split_on c s' with
           | [] => [String c' EmptyString]
           | w :: ws => String c' w :: ws
           end
  end.

Definition last_or (d : string) (xs : list string) : string := last xs d.

(** [os.path.split(p)[-1]]: the text after the last slash. *)
Definition basename (p : string) : string := last_or EmptyString (split_on slash p).

(** [pathlib.PurePosixPath(p).name]: the last part after dropping empty and
    ["."] components (so trailing slashes are ignored). *)
Definition path_name (p : string) : string :=
  last_or EmptyString
    (filter (fun c => negb (String.eqb c EmptyString || String.eqb c "."))
       (split_on slash p)).

(** [str.rfind(".")], or [None] for -1. *)
Fixpoint rfind_dot_aux (s : string) (i : nat) (best : option nat) : option nat :=
  match s with
  | EmptyString => best
  | String c s' =>
      rfind_dot_aux s' (S i) (if Ascii.eqb c dot then Some i else best)
  end.

(** [PurePath.suffix]: [name[i:]] where [i = name.rfind(".")] when
    [0 < i < len(name) - 1], else the empty string. *)
Definition path_suffix (p : string) : string :=
  let nm := path_name p in
  match rfind_dot_aux nm 0 None with
  | Some i =>
      if (0 <? i)%nat && (i <? String.length nm - 1)%nat
      then substring i (String.length nm - i) nm
      else EmptyString
  | None => EmptyString
  end.

(** ASCII [str.lower()] *)
Definition lower_char (c : ascii) : ascii :=
  let n := Ascii.nat_of_ascii c in
  if (65 <=? n)%nat && (n <=? 90)%nat then Ascii.ascii_of_nat (n + 32) else c.

Fixpoint lower (s : string) : string :=
  match s with
  | EmptyString => EmptyString
  | String c s' => String (lower_char c) (lower s')
  end.

(** [s.split("@")[0]] *)
Definition before_at (s : string) : string :=
  match split_on "@"%char s with [] => EmptyString | w :: _ => w end.

(** ** Python values used by the transform specs and the parameters *)
Inductive pyval :=
| PInt (z : Z)
| PFloat (repr : string)          (* a float, known by its [repr] *)
| PStr (s : string)
| PList (xs : list pyval)
| PTuple (xs : list pyval).

(** [repr] and [str] of these values. *)
Fixpoint py_repr (v : pyval) : string :=
  match v with
  | PInt z => Z_str z
  | PFloat r => r
  | PStr s => "'" ++ s ++ "'"
  | PList xs => "[" ++ join ", " (map py_repr xs) ++ "]"
  | PTuple [x] => "(" ++ py_repr x ++ ",)"
  | PTuple xs => "(" ++ join ", " (map py_repr xs) ++ ")"
  end.

Definition py_str (v : pyval) : string :=
  match v with PStr s => s | _ => py_repr v end.

(** [iter(v)] for the values the code iterates over. *)
Fixpoint string_chars (s : string) : list pyval :=
  match s with
  | EmptyString => []
  | String c s' => PStr (String c EmptyString) :: string_chars s'
  end.

Definition py_iter (v : pyval) : option (list pyval) :=
  match v with
  | PList xs | PTuple xs => Some xs
  | PStr s => Some (string_chars s)
  | _ => None
  end.

Definition is_tuple (v : pyval) : bool := match v with PTuple _ => true | _ => false end.
Definition is_list (v : pyval) : bool := match v with PList _ => true | _ => false end.

(** ** The kernel and the process *)

(** What the kernel answers, as functions of the commands it has received so
    far (its whole observable state), plus the file system and module
    lookup of the process. *)
Record env := {
  parse_cubit_list : string -> string -> list string -> list Z;
      (* cubit.parse_cubit_list(type, filter) *)
  surface_is_planar : Z -> list string -> bool;
      (* cubit.surface(id).is_planar() *)
  volume_entity_name : Z -> list string -> string;
      (* cubit.volume(id).entity_name() *)
  is_file : string -> bool;
      (* Path(p).is_file() *)
  cubit_importable : list string -> bool;
      (* whether [import cubit] succeeds with this sys.path *)
  set_iter : list Z -> list Z
      (* iteration order of a Python set holding these ints *)
}.

Record world := {
  w_log : list string;        (* commands sent with cubit.cmd, oldest first *)
  w_sys_path : list string;
  w_cubit_imported : bool;
  w_initialized : bool;
  w_files : list string       (* files written and directories created *)
}.

(** The state and error monad of the module. *)
Definition M (A : Type) : Type := world -> (A + exn) * world.

Definition ret {A} (a : A) : M A := fun w => (inl a, w).
Definition raise {A} (e : exn) : M A := fun w => (inr e, w).
Definition bind {A B} (m : M A) (k : A -> M B) : M B :=
  fun w => match m w with
           | (inl a, w') => k a w'
           | (inr e, w') => (inr e, w')
           end.

Notation "x <- m ;; k" := (bind m (fun x => k))
  (at level 61, m at next level, right associativity).
Notation "m ;;; k" := (bind m (fun _ => k))
  (at level 61, right associativity).

Definition get : M world := fun w => (inl w, w).
Definition put (w : world) : M unit := fun _ => (inl tt, w).

(** [cubit.cmd(s)] *)
Definition cmd (s : string) : M unit :=
  fun w => (inl tt,
    {| w_log := w_log w ++ [s]; w_sys_path := w_sys_path w;
       w_cubit_imported := w_cubit_imported w; w_initialized := w_initialized w;
       w_files := w_files w |}).

(** [cubit.parse_cubit_list(ty, filt)] *)
Definition parse (E : env) (ty filt : string) : M (list Z) :=
  fun w => (inl (parse_cubit_list E ty filt (w_log w)), w).

Definition lift_opt {A} (e : exn) (o : option A) : M A :=
  match o with Some a => ret a | None => raise e end.

Definition when (b : bool) (m : M unit) : M unit := if b then m else ret tt.

Fixpoint mapM_ {A} (f : A -> M unit) (xs : list A) : M unit :=
  match xs with
  | [] => ret tt
  | x :: xs' => f x ;;; mapM_ f xs'
  end.

Fixpoint mapM {A B} (f : A -> M B) (xs : list A) : M (list B) :=
  match xs with
  | [] => ret []
  | x :: xs' => y <- f x ;; ys <- mapM f xs' ;; ret (y :: ys)
  end.

(** [xs[i]] for a non-negative index, raising IndexError out of range. *)
Definition index {A} (xs : list A) (i : nat) : M A := lift_opt PyIndexError (nth_error xs i).

(** [xs[-1]] *)
Definition index_last {A} (xs : list A) : M A :=
  match rev xs with [] => raise PyIndexError | x :: _ => ret x end.

(** ** Geometry entries (the dictionaries of [files_with_tags]) *)

(** A surface-reflectivity record: surface id to its ["reflector"] flag, in
    the dictionary's insertion order. *)
Definition srecord := list (Z * bool).

Record entry := {
  cad_filename : string;
  material_tag : option string;
  tet_mesh : option string;
  transforms : option (list (string * pyval));
  surface_reflectivity : option srecord;
  volumes : option (list string)
}.

Definition set_volumes (e : entry) (vs : list string) : entry :=
  {| cad_filename := cad_filename e; material_tag := material_tag e;
     tet_mesh := tet_mesh e; transforms := transforms e;
     surface_reflectivity := surface_reflectivity e; volumes := Some vs |}.

Definition set_surface_reflectivity (e : entry) (d : srecord) : entry :=
  {| cad_filename := cad_filename e; material_tag := material_tag e;
     tet_mesh := tet_mesh e; transforms := transforms e;
     surface_reflectivity := Some d; volumes := volumes e |}.

(** [entry["volumes"]] *)
Definition get_volumes (e : entry) : M (list string) := lift_opt PyKeyError (volumes e).

(** Association-list dictionaries: lookup of the first binding, membership,
    assignment in place (or append), deletion. *)
Fixpoint dict_get {V} (k : string) (d : list (string * V)) : option V :=
  match d with
  | [] => None
  | (k', v) :: d' => if String.eqb k k' then Some v else dict_get k d'
  end.

Fixpoint zdict_get {V} (k : Z) (d : list (Z * V)) : option V :=
  match d with
  | [] => None
  | (k', v) :: d' => if Z.eqb k k' then Some v else zdict_get k d'
  end.

Definition zmem (k : Z) (xs : list Z) : bool := existsb (Z.eqb k) xs.

Definition zdict_keys {V} (d : list (Z * V)) : list Z := map fst d.

Fixpoint zdict_set {V} (k : Z) (v : V) (d : list (Z * V)) : list (Z * V) :=
  match d with
  | [] => [(k, v)]
  | (k', v') :: d' => if Z.eqb k k' then (k', v) :: d' else (k', v') :: zdict_set k v d'
  end.

Fixpoint zdict_del {V} (k : Z) (d : list (Z * V)) : list (Z * V) :=
  match d with
  | [] => []
  | (k', v') :: d' => if Z.eqb k k' then d' else (k', v') :: zdict_del k d'
  end.

Section Module.

Variable E : env.

(** ** find_all_surfaces_of_reflecting_wedge(new_vols, cubit, verbose) *)
Fixpoint classify_surfaces (sids : list Z) (d : srecord) : M srecord :=
  match sids with
  | [] => ret d
  | sid :: rest =>
      vs <- parse E "vertex" (" in surface " ++ Z_str sid) ;;
      planar <- (fun w => (inl (surface_is_planar E sid (w_log w)), w)) ;;
      classify_surfaces rest
        (zdict_set sid (planar && Nat.eqb (length vs) 4) d)
  end.

Definition find_all_surfaces_of_reflecting_wedge (new_vols : list string) (verbose : bool)
  : M srecord :=
  surfaces <- parse E "surface" (" in volume " ++ join " " new_vols) ;;
  classify_surfaces surfaces [].

(** Positional arguments of a Python call. *)
Inductive arg := ArgVols (vs : list string) | ArgCubit | ArgBool (b : bool).

(** The call [find_all_surfaces_of_reflecting_wedge(...)]: the [def]
    binds three positional parameters; any other number of arguments raises
    TypeError before the body runs. *)
Definition call_find_all_surfaces (args : list arg) : M srecord :=
  match args with
  | [ArgVols nv; ArgCubit; ArgBool verbose] => find_all_surfaces_of_reflecting_wedge nv verbose
  | _ => raise PyTypeError
  end.

(** ** find_number_of_volumes_in_each_step_file *)

(** [set(a).symmetric_difference(set(b))], listed in set iteration order. *)
Definition symmetric_difference (a b : list Z) : list Z :=
  set_iter E (nodup Z.eq_dec (filter (fun x => negb (zmem x b)) a ++
                              filter (fun x => negb (zmem x a)) b)).

(** One iteration of the loop over [files_with_tags]; returns the updated
    entry and the value of [all_vols] at the end of the iteration. *)
Definition load_entry (verbose : bool) (e : entry) : M (entry * list Z) :=
  let f := cad_filename e in
  current_vols <- parse E "volume" "all" ;;
  import_type <-
    (if ends_with ".stp" f || ends_with ".step" f then ret "step"
     else if ends_with ".sat" f then ret "acis"
     else raise UnsupportedInputFormat) ;;
  (if is_file E f then ret tt else raise FileNotFound) ;;;
  let short_file_name := basename f in
  cmd ("import " ++ import_type ++ " " ++ dq ++ f ++ dq
       ++ " separate_bodies no_surfaces no_curves no_vertices ") ;;;
  cmd "healer autoheal vol all" ;;;
  all_vols <- parse E "volume" "all" ;;
  let new_vols := map Z_str (symmetric_difference current_vols all_vols) in
  when (match material_tag e with Some _ => true | None => false end
        && (1 <? length new_vols)%nat)
    (cmd ("unite vol " ++ join " " new_vols ++ " with vol " ++ join " " new_vols)) ;;;
  all_vols <- parse E "volume" "all" ;;
  let new_vols_after_unite := map Z_str (symmetric_difference current_vols all_vols) in
  let e := set_volumes e new_vols_after_unite in
  cmd ("group " ++ dq ++ short_file_name ++ dq ++ " add volume "
       ++ join " " new_vols_after_unite) ;;;
  match surface_reflectivity e with
  | Some _ =>
      d <- call_find_all_surfaces [ArgVols new_vols_after_unite; ArgCubit] ;;
      ret (set_surface_reflectivity e d, all_vols)
  | None => ret (e, all_vols)
  end.

(** The loop; [all_vols] is unbound until the first iteration assigns it. *)
Fixpoint load_loop (verbose : bool) (es : list entry) (all_vols : option (list Z))
  : M (list entry * option (list Z)) :=
  match es with
  | [] => ret ([], all_vols)
  | e :: es' =>
      p <- load_entry verbose e ;;
      let (e', av) := p in
      r <- load_loop verbose es' (Some av) ;;
      let (es'', av') := r in
      ret (e' :: es'', av')
  end.

Definition find_number_of_volumes_in_each_step_file (files_with_tags : list entry) (verbose : bool)
  : M (list entry * Z) :=
  r <- load_loop verbose files_with_tags None ;;
  let (es, all_vols) := r in
  cmd "separate body all" ;;;
  cmd "validate vol all" ;;;
  av <- lift_opt UnboundLocal all_vols ;;
  ret (es, fold_left Z.add av 0%Z).

(** ** apply_transforms *)

Definition transform_value (e : entry) (k : string) : M pyval :=
  tr <- lift_opt PyKeyError (transforms e) ;;
  lift_opt PyKeyError (dict_get k tr).

Definition iter_of (v : pyval) : M (list pyval) := lift_opt PyTypeError (py_iter v).

Definition item (v : pyval) (i : nat) : M pyval :=
  match v with
  | PList xs | PTuple xs => index xs i
  | PStr s => index (string_chars s) i
  | _ => raise PyTypeError
  end.

Definition scale_geometry (e : entry) : M unit :=
  vols <- get_volumes e ;;
  s <- transform_value e "scale" ;;
  cmd ("volume " ++ join " " vols ++ "  scale  " ++ py_str s).

Fixpoint move_each (targets : pyval) (movs : list pyval) (i : nat) : M unit :=
  match movs with
  | [] => ret tt
  | mov :: rest =>
      ms <- iter_of mov ;;
      let translation := map py_str ms in
      vol <- item targets i ;;
      cmd ("volume " ++ py_str vol ++ "  move  " ++ join " " translation) ;;;
      move_each targets rest (S i)
  end.

Definition move_volume (e : entry) : M unit :=
  mv <- transform_value e "move" ;;
  if is_tuple mv then
    m1 <- item mv 1 ;;
    m10 <- item m1 0 ;;
    if is_list m10 then
      movs <- iter_of m1 ;;
      m0 <- item mv 0 ;;
      move_each m0 movs 0
    else
      m0 <- item mv 0 ;;
      vs <- iter_of m0 ;;
      let vols := map py_str vs in
      ts <- iter_of m1 ;;
      let translation := map py_str ts in
      cmd ("volume " ++ join " " vols ++ "  move  " ++ join " " translation)
  else
    ts <- iter_of mv ;;
    let translation := map py_str ts in
    vols <- get_volumes e ;;
    cmd ("volume " ++ join " " vols ++ "  move  " ++ join " " translation).

Definition rotate_volume (e : entry) : M unit :=
  r <- transform_value e "rotate" ;;
  rs <- iter_of r ;;
  let rotation_vector := map py_str rs in
  rot_angle <- index rotation_vector 0 ;;
  let origin := join " " (firstn 3 (skipn 1 rotation_vector)) in
  let direction := join " " (firstn 3 (skipn 4 rotation_vector)) in
  vols <- get_volumes e ;;
  cmd ("rotate volume " ++ join " " vols ++ "  angle " ++ rot_angle ++ " about origin "
       ++ origin ++ " direction " ++ direction).

(** The body of [for transform in entry['transforms'].keys()]. *)
Definition apply_transform_key (e : entry) (k : string) : M unit :=
  when (String.eqb k "move") (move_volume e) ;;;
  when (String.eqb k "scale") (scale_geometry e) ;;;
  when (String.eqb k "rotate") (rotate_volume e).

Definition transform_entry (e : entry) : M unit :=
  match transforms e with
  | Some tr => mapM_ (apply_transform_key e) (map fst tr)
  | None => ret tt
  end.

Definition apply_transforms (geometry_details : list entry) : M unit :=
  mapM_ transform_entry geometry_details ;;;
  cmd "healer autoheal vol all".

(** ** tag_geometry_with_mats *)

(** The per-volume branch for an entry without a material tag. *)
Definition tag_volume_by_name (vol : string) : M unit :=
  n <- lift_opt IntParseError (py_int vol) ;;
  w <- get ;;
  let mat_name := before_at (volume_entity_name E n (w_log w)) in
  cmd ("group " ++ dq ++ "mat:" ++ mat_name ++ dq ++ " add volume " ++ vol).

(** The body of [for entry in geometry_details]. *)
Definition tag_entry (implicit_complement_material_tag : option string) (e : entry) : M unit :=
  match material_tag e with
  | Some t =>
      if (27 <? String.length t)%nat then raise TagTooLong else
      vols <- get_volumes e ;;
      cmd ("group " ++ dq ++ "mat:" ++ t ++ dq ++ " add volume " ++ join " " vols) ;;;
      when (String.eqb (lower t) "graveyard")
        (match implicit_complement_material_tag with
         | Some ict =>
             gvn <- index vols 0 ;;
             cmd ("group " ++ dq ++ "mat:" ++ ict ++ "_comp" ++ dq ++ " add vol " ++ gvn)
         | None => ret tt
         end)
  | None =>
      vols <- get_volumes e ;;
      mapM_ tag_volume_by_name vols
  end.

(** The graveyard synthesis at the end of [tag_geometry_with_mats]. *)
Definition make_graveyard (geometry_details : list entry)
    (implicit_complement_material_tag : option string) (graveyard : Z) : M unit :=
  last_entry <- index_last geometry_details ;;
  vols <- get_volumes last_entry ;;
  last_vol <- index_last vols ;;
  final_vol_number <- lift_opt IntParseError (py_int last_vol) ;;
  let inner := (final_vol_number + 1)%Z in
  let outer := (final_vol_number + 2)%Z in
  let graveyard_volume_number := (final_vol_number + 3)%Z in
  cmd ("create brick x " ++ Z_str graveyard) ;;;
  cmd ("create brick x " ++ Z_str (graveyard + 5)) ;;;
  cmd ("subtract vol " ++ Z_str inner ++ "from vol " ++ Z_str outer) ;;;
  cmd ("group " ++ dq ++ "mat:" ++ "Graveyard" ++ dq ++ " add volume "
       ++ Z_str graveyard_volume_number) ;;;
  match implicit_complement_material_tag with
  | Some ict =>
      cmd ("group " ++ dq ++ "mat:" ++ ict ++ "_comp" ++ dq ++ " add vol "
           ++ Z_str graveyard_volume_number)
  | None => ret tt
  end.

(** The side length is an int here ([graveyard + 5] is the only arithmetic
    the code does on it). *)
Definition tag_geometry_with_mats (geometry_details : list entry)
    (implicit_complement_material_tag : option string) (graveyard : option Z) : M unit :=
  mapM_ (tag_entry implicit_complement_material_tag) geometry_details ;;;
  match graveyard with
  | Some g => make_graveyard geometry_details implicit_complement_material_tag g
  | None => ret tt
  end.

(** ** imprint_geometry and merge_geometry *)
Definition imprint_geometry : M unit := cmd "imprint body all".

Definition merge_geometry (merge_tolerance : pyval) : M unit :=
  cmd ("merge tolerance " ++ py_str merge_tolerance) ;;;
  cmd "merge vol all group_results".

(** ** find_reflecting_surfaces_of_reflecting_wedge *)

(** [for surface_id in surface_info_dict.keys(): ... del surface_info_dict[surface_id]]:
    a dict key iterator checks, at every step, that the dict still has the
    size it had when the iteration started, and raises RuntimeError if not. *)
Fixpoint prune_stale (live : list Z) (used : nat) (ks : list Z) (d : srecord) : M srecord :=
  if negb (Nat.eqb (length d) used) then raise PyRuntimeError else
  match ks with
  | [] => ret d
  | sid :: ks' =>
      refl <- lift_opt PyKeyError (zdict_get sid d) ;;
      let d' := if refl && negb (zmem sid live) then zdict_del sid d else d in
      prune_stale live used ks' d'
  end.

(** [for surface_id in surfaces_in_wedge_volume: if surface_id not in ...] *)
Fixpoint add_new_surfaces (surface_reflectivity_name : string) (live : list Z) (d : srecord)
  : M srecord :=
  match live with
  | [] => ret d
  | sid :: rest =>
      if zmem sid (zdict_keys d) then add_new_surfaces surface_reflectivity_name rest d
      else
        cmd ("group " ++ dq ++ surface_reflectivity_name ++ dq ++ " add surf " ++ Z_str sid) ;;;
        cmd ("surface " ++ Z_str sid ++ " visibility on") ;;;
        add_new_surfaces surface_reflectivity_name rest (d ++ [(sid, true)])
  end.

(** The reconciliation for one wedge entry: the updated record and the
    wedge volume string. *)
Definition reconcile_wedge (surface_reflectivity_name : string) (e : entry) (d : srecord)
  : M (srecord * string) :=
  vols <- get_volumes e ;;
  let wedge_volume := join " " vols in
  live <- parse E "surface" (" in volume " ++ wedge_volume) ;;
  d1 <- prune_stale live (length d) (zdict_keys d) d ;;
  d2 <- add_new_surfaces surface_reflectivity_name live d1 ;;
  ret (d2, wedge_volume).

Fixpoint find_reflecting_surfaces_of_reflecting_wedge (geometry_details : list entry)
    (surface_reflectivity_name : string) (verbose : bool)
  : M (list entry * option string) :=
  match geometry_details with
  | [] => ret ([], None)
  | e :: rest =>
      match surface_reflectivity e with
      | Some d =>
          r <- reconcile_wedge surface_reflectivity_name e d ;;
          let (d2, wedge_volume) := r in
          ret (set_surface_reflectivity e d2 :: rest, Some wedge_volume)
      | None =>
          r <- find_reflecting_surfaces_of_reflecting_wedge rest surface_reflectivity_name verbose ;;
          let (rest', wv) := r in
          ret (e :: rest', wv)
      end
  end.

(** ** create_tet_mesh and save_output_files *)
Definition create_tet_mesh (geometry_details : list entry) : M unit :=
  cmd "Trimesher volume gradation 1.3" ;;;
  cmd "volume all size auto factor 5" ;;;
  mapM_ (fun e =>
    match tet_mesh e with
    | Some tm =>
        vols <- get_volumes e ;;
        mapM_ (fun volume =>
          cmd ("volume " ++ volume ++ " size auto factor 6") ;;;
          cmd "volume all scheme tetmesh proximity layers off" ;;;
          cmd ("volume " ++ volume ++ " " ++ tm) ;;;
          cmd ("mesh volume " ++ volume)) vols
    | None => ret tt
    end) geometry_details.

(** Files written and directories created by the process. *)
Definition record_file (f : string) : M unit :=
  fun w => (inl tt,
    {| w_log := w_log w; w_sys_path := w_sys_path w;
       w_cubit_imported := w_cubit_imported w; w_initialized := w_initialized w;
       w_files := w_files w ++ [f] |}).

(** [Path(p).parents[0]] *)
Definition path_parent (p : string) : string :=
  match removelast (filter (fun c => negb (String.eqb c EmptyString || String.eqb c "."))
                      (split_on slash p)) with
  | [] => "."
  | parts => join "/" parts
  end.

Definition save_output_files (make_watertight : bool) (geometry_details : list entry)
    (h5m_filename cubit_filename geometry_details_filename : option string)
    (faceting_tolerance : pyval) (exo_filename : option string) (verbose : bool) : M unit :=
  cmd "set attribute on" ;;;
  match geometry_details_filename with Some f => record_file f | None => ret tt end ;;;
  h5m <- lift_opt PyTypeError h5m_filename ;;
  record_file (path_parent h5m) ;;;
  (if make_watertight then
     cmd ("export dagmc " ++ dq ++ h5m ++ dq ++ " faceting_tolerance "
          ++ py_str faceting_tolerance ++ " make_watertight")
   else
     cmd ("export dagmc " ++ dq ++ h5m ++ dq ++ " faceting_tolerance "
          ++ py_str faceting_tolerance)) ;;;
  create_tet_mesh geometry_details ;;;
  match exo_filename with
  | Some x => record_file (path_parent x) ;;; cmd ("export mesh " ++ dq ++ x ++ dq ++ " overwrite")
  | None => ret tt
  end ;;;
  match cubit_filename with
  | Some c => cmd ("save as " ++ dq ++ c ++ dq ++ " overwrite")
  | None => ret tt
  end.

(** ** cad_to_h5m *)

(** [sys.path.append(p)] *)
Definition sys_path_append (p : string) : M unit :=
  fun w => (inl tt,
    {| w_log := w_log w; w_sys_path := w_sys_path w ++ [p];
       w_cubit_imported := w_cubit_imported w; w_initialized := w_initialized w;
       w_files := w_files w |}).

(** [import cubit] *)
Definition import_cubit : M unit :=
  fun w =>
    if cubit_importable E (w_sys_path w) then
      (inl tt, {| w_log := w_log w; w_sys_path := w_sys_path w;
                  w_cubit_imported := true; w_initialized := w_initialized w;
                  w_files := w_files w |})
    else (inr KernelUnavailable, w).

(** [cubit.init([])] *)
Definition cubit_init : M unit :=
  fun w => (inl tt, {| w_log := w_log w; w_sys_path := w_sys_path w;
                      w_cubit_imported := w_cubit_imported w; w_initialized := true;
                      w_files := w_files w |}).

Definition check_suffix (fname : option string) (allowed : list string) (e : exn) : M unit :=
  match fname with
  | None => ret tt
  | Some f => if existsb (String.eqb (path_suffix f)) allowed then ret tt else raise e
  end.

(** The imprint and merge step of [cad_to_h5m]. *)
Definition imprint_and_merge (imprint : bool) (total_number_of_volumes : Z)
    (merge_tolerance : pyval) : M unit :=
  when (imprint && (1 <? total_number_of_volumes)%Z) imprint_geometry ;;;
  when (1 <? total_number_of_volumes)%Z (merge_geometry merge_tolerance).

Definition cad_to_h5m (files_with_tags : list entry) (h5m_filename : option string)
    (cubit_path : string) (cubit_filename : option string) (merge_tolerance : pyval)
    (faceting_tolerance : pyval) (make_watertight imprint : bool)
    (geometry_details_filename : option string) (surface_reflectivity_name : string)
    (exo_filename : option string) (implicit_complement_material_tag : option string)
    (verbose : bool) (graveyard : option Z) : M (option string) :=
  check_suffix h5m_filename [".h5m"] InvalidOutputExtension ;;;
  check_suffix exo_filename [".exo"] InvalidExoExtension ;;;
  check_suffix cubit_filename [".cub"; ".cub5"] InvalidCubitExtension ;;;
  sys_path_append cubit_path ;;;
  import_cubit ;;;
  cubit_init ;;;
  when (negb verbose)
    (cmd "set echo off" ;;; cmd "set info off" ;;; cmd "set journal off" ;;;
     cmd "set warning off") ;;;
  r <- find_number_of_volumes_in_each_step_file files_with_tags verbose ;;
  let (geometry_details, total_number_of_volumes) := r in
  apply_transforms geometry_details ;;;
  tag_geometry_with_mats geometry_details implicit_complement_material_tag graveyard ;;;
  imprint_and_merge imprint total_number_of_volumes merge_tolerance ;;;
  r2 <- find_reflecting_surfaces_of_reflecting_wedge geometry_details
          surface_reflectivity_name verbose ;;
  let (geometry_details, _) := r2 in
  save_output_files make_watertight geometry_details h5m_filename cubit_filename
    geometry_details_filename faceting_tolerance exo_filename verbose ;;;
  cmd "reset" ;;;
  ret h5m_filename.

End Module.

(** ** Concrete kernels and inputs *)

(** A process with an empty kernel session. *)
Definition fresh_world : world :=
  {| w_log := []; w_sys_path := []; w_cubit_imported := false; w_initialized := false;
     w_files := [] |}.

(** [w] after the commands [cs]. *)
Definition append_log (w : world) (cs : list string) : world :=
  {| w_log := w_log w ++ cs; w_sys_path := w_sys_path w;
     w_cubit_imported := w_cubit_imported w; w_initialized := w_initialized w;
     w_files := w_files w |}.

(** Whether the kernel has received an import command. *)
Definition imported (log : list string) : bool := existsb (String.prefix "import ") log.

(** A kernel whose only volume, created by the first import, gets ID 2; the
    volume has surfaces 1, 2 and 3, of which 2 is curved; every surface has
    four vertices. *)
Definition one_volume_kernel : env := {|
  parse_cubit_list := fun ty filt log =>
    if String.eqb ty "volume" then (if imported log then [2%Z] else [])
    else if String.eqb ty "surface" then [1; 2; 3]%Z
    else if String.eqb ty "vertex" then [1; 2; 3; 4]%Z
    else [];
  surface_is_planar := fun sid _ => negb (Z.eqb sid 2);
  volume_entity_name := fun _ _ => "steel@1";
  is_file := fun _ => true;
  cubit_importable := fun _ => true;
  set_iter := fun l => l |}.

(** The same kernel on a machine where no input file exists. *)
Definition no_files_kernel : env := {|
  parse_cubit_list := parse_cubit_list one_volume_kernel;
  surface_is_planar := surface_is_planar one_volume_kernel;
  volume_entity_name := volume_entity_name one_volume_kernel;
  is_file := fun _ => false;
  cubit_importable := fun _ => true;
  set_iter := fun l => l |}.

(** A process in which [import cubit] fails whatever [sys.path] holds. *)
Definition no_cubit_kernel : env := {|
  parse_cubit_list := parse_cubit_list one_volume_kernel;
  surface_is_planar := surface_is_planar one_volume_kernel;
  volume_entity_name := volume_entity_name one_volume_kernel;
  is_file := is_file one_volume_kernel;
  cubit_importable := fun _ => false;
  set_iter := fun l => l |}.

Definition plain_entry (f : string) : entry :=
  {| cad_filename := f; material_tag := None; tet_mesh := None; transforms := None;
     surface_reflectivity := None; volumes := None |}.

(** [{"cad_filename": "part.stp"}] after loading into volume 1, with
    [transforms = {"scale": 2, "move": [0, 0, 10]}]. *)
Definition scale_then_move_entry : entry :=
  {| cad_filename := "part.stp"; material_tag := Some "fuel"; tet_mesh := None;
     transforms := Some [("scale", PInt 2); ("move", PList [PInt 0; PInt 0; PInt 10])];
     surface_reflectivity := None; volumes := Some ["1"] |}.

(** A wedge entry (volume 1) carrying a surface-reflectivity record. *)
Definition wedge_entry (d : srecord) : entry :=
  {| cad_filename := "wedge.stp"; material_tag := None; tet_mesh := None; transforms := None;
     surface_reflectivity := Some d; volumes := Some ["1"] |}.

Definition tagged_entry (t : string) (vs : list string) : entry :=
  {| cad_filename := "part.stp"; material_tag := Some t; tet_mesh := None; transforms := None;
     surface_reflectivity := None; volumes := Some vs |}.

(** [cad_to_h5m] with its default keyword arguments apart from the inputs,
    the output name and the graveyard. *)
Definition cad_to_h5m_defaults (E : env) (files : list entry) (h5m : string)
    (graveyard : option Z) : M (option string) :=
  cad_to_h5m E files (Some h5m) "/opt/Coreform-Cubit-2021.5/bin/" None (PFloat "0.0001")
    (PFloat "0.01") true true None "reflective" None None true graveyard.

(** Code that only appends to the command log: its result does not depend
    on the world, and it extends the log by the same commands from any
    world. *)
Definition log_only {A} (m : M A) : Prop :=
  forall w, m w = (fst (m fresh_world), append_log w (w_log (snd (m fresh_world)))).

(** The commands [m] appends. *)
Definition cmds_of {A} (m : M A) : list string := w_log (snd (m fresh_world)).

(** The commands the loop body issues for one key of the transforms dict,
    and for a run of keys. *)
Definition key_cmds (e : entry) (k : string) : list string := cmds_of (apply_transform_key e k).

Definition keys_cmds (e : entry) (tr : list (string * pyval)) : list string :=
  concat (map (key_cmds e) (map fst tr)).

(** [sub in s] for strings. *)
Definition substring_of (sub s : string) : Prop :=
  exists pre post : string, s = (pre ++ sub ++ post)%string.

(** Code whose every exception satisfies [P]. *)
Definition raises_only {A} (P : exn -> Prop) (m : M A) : Prop :=
  forall w x w', m w = (inr x, w') -> P x.

(** Code that never returns normally. *)
Definition never_ok {A} (m : M A) : Prop :=
  forall w a w', m w <> (inl a, w').

(** [f.endswith(".stp") or f.endswith(".step") or f.endswith(".sat")]: the
    extensions the loader accepts. *)
Definition supported_cad (f : string) : bool :=
  ends_with ".stp" f || ends_with ".step" f || ends_with ".sat" f.

(** The exceptions loading [e] can raise: an unsupported extension, a
    missing file, or the TypeError of the two-argument call. *)
Definition load_error (E : env) (e : entry) (x : exn) : Prop :=
  (x = UnsupportedInputFormat /\ supported_cad (cad_filename e) = false)
  \/ (x = FileNotFound /\ is_file E (cad_filename e) = false)
  \/ x = PyTypeError.

(** ** Lemmas *)

Lemma append_log_nil (w : world) : append_log w [] = w.
Proof. destruct w; unfold append_log; simpl; rewrite app_nil_r; reflexivity. Qed.

Lemma append_log_app (w : world) (a b : list string) :
  append_log (append_log w a) b = append_log w (a ++ b).
Proof. destruct w; unfold append_log; simpl; rewrite app_assoc; reflexivity. Qed.

Lemma log_append_fresh (cs : list string) : w_log (append_log fresh_world cs) = cs.
Proof. reflexivity. Qed.

Lemma log_only_ret {A} (a : A) : log_only (ret a).
Proof. intros w. unfold ret; simpl. rewrite append_log_nil. reflexivity. Qed.

Lemma log_only_raise {A} (e : exn) : log_only (@raise A e).
Proof. intros w. unfold raise; simpl. rewrite append_log_nil. reflexivity. Qed.

Lemma log_only_cmd (s : string) : log_only (cmd s).
Proof. intros w. reflexivity. Qed.

Lemma log_only_lift_opt {A} (e : exn) (o : option A) : log_only (lift_opt e o).
Proof. destruct o; [apply log_only_ret | apply log_only_raise]. Qed.

Lemma log_only_bind {A B} (m : M A) (k : A -> M B) :
  log_only m -> (forall a, log_only (k a)) -> log_only (bind m k).
Proof.
  intros Hm Hk w. unfold bind.
  rewrite (Hm w). destruct (m fresh_world) as [[a|x] w0] eqn:Hf; simpl.
  - rewrite (Hk a (append_log w (w_log w0))), (Hk a w0). simpl.
    rewrite append_log_app. reflexivity.
  - reflexivity.
Qed.

Lemma log_only_when (b : bool) (m : M unit) : log_only m -> log_only (when b m).
Proof. destruct b; simpl; auto using log_only_ret. Qed.

Lemma log_only_mapM_ {A} (f : A -> M unit) (xs : list A) :
  (forall x, log_only (f x)) -> log_only (mapM_ f xs).
Proof.
  intros Hf. induction xs as [|x xs IH]; simpl.
  - apply log_only_ret.
  - apply log_only_bind; auto.
Qed.

Lemma log_only_index {A} (xs : list A) (i : nat) : log_only (index xs i).
Proof. apply log_only_lift_opt. Qed.

Lemma log_only_raise_or_ret {A} (m : M A) :
  (exists a, m = ret a) \/ (exists e, m = raise e) -> log_only m.
Proof.
  intros [[a ->]|[e ->]]; [apply log_only_ret | apply log_only_raise].
Qed.

Create HintDb logonly.
#[export] Hint Resolve log_only_ret log_only_raise log_only_cmd log_only_lift_opt
  log_only_index log_only_when log_only_mapM_ : logonly.

(** Prove [log_only] of a composite by following its structure. *)
Ltac log_only_tac :=
  repeat first
    [ progress (intros)
    | apply log_only_bind
    | apply log_only_mapM_
    | apply log_only_when
    | match goal with
      | |- log_only (if ?b then _ else _) => destruct b
      | |- log_only (match ?x with _ => _ end) => destruct x
      end
    | solve [eauto with logonly] ].

Lemma log_only_item (v : pyval) (i : nat) : log_only (item v i).
Proof. unfold item. destruct v; auto with logonly. Qed.

Lemma log_only_iter_of (v : pyval) : log_only (iter_of v).
Proof. unfold iter_of. auto with logonly. Qed.

Lemma log_only_get_volumes (e : entry) : log_only (get_volumes e).
Proof. unfold get_volumes. auto with logonly. Qed.

Lemma log_only_transform_value (e : entry) (k : string) : log_only (transform_value e k).
Proof. unfold transform_value. log_only_tac. Qed.

#[export] Hint Resolve log_only_item log_only_iter_of log_only_get_volumes
  log_only_transform_value : logonly.

Lemma log_only_move_each (targets : pyval) (movs : list pyval) (i : nat) :
  log_only (move_each targets movs i).
Proof.
  revert i. induction movs as [|mov rest IH]; intros i; simpl; log_only_tac.
Qed.

#[export] Hint Resolve log_only_move_each : logonly.

Lemma log_only_apply_transform_key (e : entry) (k : string) :
  log_only (apply_transform_key e k).
Proof.
  unfold apply_transform_key, move_volume, scale_geometry, rotate_volume. log_only_tac.
Qed.

Lemma mapM__ok {A} (f : A -> M unit) (xs : list A) (w w' : world) :
  (forall x, log_only (f x)) ->
  mapM_ f xs w = (inl tt, w') ->
  (forall x, In x xs -> fst (f x fresh_world) = inl tt) /\
  w' = append_log w (concat (map (fun x => cmds_of (f x)) xs)).
Proof.
  intros Hf. revert w. induction xs as [|x xs IH]; intros w H; simpl in *.
  - unfold ret in H. inversion H. rewrite append_log_nil. split; [tauto | reflexivity].
  - unfold bind in H. rewrite (Hf x w) in H.
    destruct (fst (f x fresh_world)) as [[]|err] eqn:Hx; [|discriminate].
    destruct (IH _ H) as [Hall ->]. split.
    + intros y [<-|Hy]; auto.
    + rewrite append_log_app. reflexivity.
Qed.

Lemma log_only_transform_entry (e : entry) : log_only (transform_entry e).
Proof.
  unfold transform_entry. destruct (transforms e); auto with logonly.
  apply log_only_mapM_. apply log_only_apply_transform_key.
Qed.

Lemma in_of_existsb (x : string) (l : list string) :
  existsb (String.eqb x) l = true -> In x l.
Proof.
  intros H. apply existsb_exists in H as [y [Hy Heq]].
  apply String.eqb_eq in Heq. subst. exact Hy.
Qed.

(** C1 (code_bug).  [cad_to_h5m] passes [sum(all_vols)], the sum of the
    volume IDs, as [total_number_of_volumes].  With a single input file whose
    single volume is numbered 2, exactly one volume exists after loading,
    yet the run sends both the imprint and the merge commands. *)
Theorem C1_single_volume_imprinted_and_merged :
  let w' := snd (cad_to_h5m_defaults one_volume_kernel [plain_entry "part.stp"]
                   "dagmc.h5m" None fresh_world) in
  length (parse_cubit_list one_volume_kernel "volume" "all" (w_log w')) = 1%nat /\
  In "imprint body all" (w_log w') /\ In "merge vol all group_results" (w_log w').
Proof.
  cbv zeta. split; [vm_compute; reflexivity|].
  split; apply in_of_existsb; vm_compute; reflexivity.
Qed.

(** C2 (counterexample).  With [transforms = {"scale": 2, "move": [0, 0, 10]}]
    the scale command is sent before the move command: the order is the
    dictionary's, not move then scale. *)
Lemma C2_scale_key_first_scales_first :
  apply_transforms [scale_then_move_entry] fresh_world =
  (inl tt, append_log fresh_world
             ["volume 1  scale  2"; "volume 1  move  0 0 10"; "healer autoheal vol all"]).
Proof. vm_compute. reflexivity. Qed.

(** C2 (amended).  For every entry of a successful [apply_transforms] run,
    the commands of any two keys of its transforms dictionary are sent in
    the order in which the keys appear in the dictionary, the commands of
    each key being those of [move_volume], [scale_geometry] or
    [rotate_volume] (none for another key); the run ends with the
    auto-heal command. *)
Theorem C2_transform_commands_follow_key_order (pre post : list entry) (e : entry)
    (tr1 tr2 tr3 : list (string * pyval)) (k1 k2 : string) (v1 v2 : pyval) (w w' : world) :
  transforms e = Some (tr1 ++ (k1, v1) :: tr2 ++ (k2, v2) :: tr3) ->
  apply_transforms (pre ++ e :: post) w = (inl tt, w') ->
  exists before after : list string,
    w_log w' = w_log w ++ before ++ keys_cmds e tr1 ++ key_cmds e k1 ++ keys_cmds e tr2
               ++ key_cmds e k2 ++ keys_cmds e tr3 ++ after ++ ["healer autoheal vol all"].
Proof.
  intros Htr H. unfold apply_transforms, bind in H.
  destruct (mapM_ transform_entry (pre ++ e :: post) w) as [[[]|err] w1] eqn:Hm;
    [|discriminate].
  destruct (mapM__ok _ _ _ _ log_only_transform_entry Hm) as [Hall ->].
  inversion H; subst w'; clear H.
  assert (He : fst (transform_entry e fresh_world) = inl tt)
    by (apply Hall; apply in_or_app; right; left; reflexivity).
  assert (Hce : cmds_of (transform_entry e) = keys_cmds e (tr1 ++ (k1, v1) :: tr2 ++ (k2, v2) :: tr3)).
  { unfold cmds_of. unfold transform_entry in *. rewrite Htr in *.
    destruct (mapM_ (apply_transform_key e) (map fst (tr1 ++ (k1, v1) :: tr2 ++ (k2, v2) :: tr3))
                fresh_world) as [r wf] eqn:Hf.
    simpl in He. subst r.
    destruct (mapM__ok _ _ _ _ (log_only_apply_transform_key e) Hf) as [_ ->].
    reflexivity. }
  exists (concat (map (fun x => cmds_of (transform_entry x)) pre)),
         (concat (map (fun x => cmds_of (transform_entry x)) post)).
  simpl. rewrite map_app, concat_app. simpl. rewrite Hce.
  unfold keys_cmds. rewrite !map_app, !concat_app. simpl. rewrite !map_app, !concat_app. simpl.
  rewrite !app_assoc. reflexivity.
Qed.

(** Witness: the entry with [{"scale": 2, "move": [0, 0, 10]}]. *)

(** Witness: the entry with [{"scale": 2, "move": [0, 0, 10]}]. *)
Lemma C2_transform_commands_follow_key_order_witness :
  apply_transforms ([] ++ scale_then_move_entry :: []) fresh_world =
    (inl tt, snd (apply_transforms [scale_then_move_entry] fresh_world)) /\
  exists before after : list string,
    w_log (snd (apply_transforms [scale_then_move_entry] fresh_world)) =
      w_log fresh_world ++ before ++ keys_cmds scale_then_move_entry []
      ++ key_cmds scale_then_move_entry "scale" ++ keys_cmds scale_then_move_entry []
      ++ key_cmds scale_then_move_entry "move" ++ keys_cmds scale_then_move_entry []
      ++ after ++ ["healer autoheal vol all"].
Proof.
  assert (Hrun : apply_transforms ([] ++ scale_then_move_entry :: []) fresh_world =
                 (inl tt, snd (apply_transforms [scale_then_move_entry] fresh_world)))
    by (vm_compute; reflexivity).
  split; [exact Hrun|].
  exact (C2_transform_commands_follow_key_order [] [] scale_then_move_entry [] [] []
           "scale" "move" (PInt 2) (PList [PInt 0; PInt 0; PInt 10]) fresh_world
           (snd (apply_transforms [scale_then_move_entry] fresh_world)) eq_refl Hrun).
Defined.

(** C3 (counterexample).  ["dagmc.h5m/"] does not end in [".h5m"], but its
    pathlib suffix is [".h5m"] (the trailing slash is dropped), so the call
    does not raise: it imports the kernel binding and runs to the end. *)
Lemma C3_trailing_slash_passes_check :
  ends_with ".h5m" "dagmc.h5m/" = false /\
  fst (cad_to_h5m_defaults one_volume_kernel [plain_entry "part.stp"] "dagmc.h5m/" None
         fresh_world) = inl (Some "dagmc.h5m/") /\
  w_cubit_imported (snd (cad_to_h5m_defaults one_volume_kernel [plain_entry "part.stp"]
                           "dagmc.h5m/" None fresh_world)) = true.
Proof. split; [|split]; vm_compute; reflexivity. Qed.

(** C3 (amended).  For every [h5m_filename] whose pathlib suffix (that of its
    last path component, trailing slashes and ["."] parts dropped) is not
    [".h5m"], [cad_to_h5m] raises the invalid-extension error and leaves the
    world untouched: [sys.path] is not extended, the binding is not imported,
    the session is not initialised and no command is sent. *)
Theorem C3_bad_suffix_fails_before_kernel (E : env) (files : list entry) (h5m cubit_path : string)
    (cubit_filename : option string) (merge_tolerance faceting_tolerance : pyval)
    (make_watertight imprint : bool) (gdf : option string) (srn : string)
    (exo ict : option string) (verbose : bool) (graveyard : option Z) (w : world) :
  path_suffix h5m <> ".h5m" ->
  cad_to_h5m E files (Some h5m) cubit_path cubit_filename merge_tolerance faceting_tolerance
    make_watertight imprint gdf srn exo ict verbose graveyard w = (inr InvalidOutputExtension, w).
Proof.
  intros Hs. unfold cad_to_h5m, check_suffix, bind at 1. simpl.
  destruct (String.eqb_spec (path_suffix h5m) ".h5m") as [Heq|_]; [contradiction|].
  reflexivity.
Qed.

Lemma C3_bad_suffix_fails_before_kernel_witness :
  path_suffix "dagmc.txt" <> ".h5m" /\
  cad_to_h5m one_volume_kernel [plain_entry "part.stp"] (Some "dagmc.txt") "/opt/" None
    (PFloat "0.0001") (PFloat "0.01") true true None "reflective" None None true None fresh_world
  = (inr InvalidOutputExtension, fresh_world).
Proof.
  assert (H : path_suffix "dagmc.txt" <> ".h5m") by (vm_compute; discriminate).
  split; [exact H|].
  exact (C3_bad_suffix_fails_before_kernel one_volume_kernel [plain_entry "part.stp"] "dagmc.txt"
           "/opt/" None (PFloat "0.0001") (PFloat "0.01") true true None "reflective" None None
           true None fresh_world H).
Defined.

(** C4.  For an entry whose material tag is longer than 27 characters, the
    loop body of [tag_geometry_with_mats] raises the too-long error without
    sending any command; and a whole call on a list holding the entry ends
    in the state reached after the entries before it: no command for this
    entry or any later one is sent, and the error is the too-long one
    unless an earlier entry already raised its own. *)
Theorem C4_long_tag_raises_without_group (E : env) (ict : option string) (graveyard : option Z)
    (pre post : list entry) (e : entry) (t : string) (w : world) :
  material_tag e = Some t ->
  (27 < String.length t)%nat ->
  tag_entry E ict e w = (inr TagTooLong, w) /\
  exists r w1,
    mapM_ (tag_entry E ict) pre w = (r, w1) /\
    tag_geometry_with_mats E (pre ++ e :: post) ict graveyard w =
      (inr (match r with inl _ => TagTooLong | inr err => err end), w1).
Proof.
  intros Ht Hlen.
  assert (Hentry : forall w0, tag_entry E ict e w0 = (inr TagTooLong, w0)).
  { intros w0. unfold tag_entry. rewrite Ht.
    destruct (Nat.ltb_spec 27 (String.length t)); [reflexivity | lia]. }
  split; [apply Hentry|].
  destruct (mapM_ (tag_entry E ict) pre w) as [r w1] eqn:Hpre.
  exists r, w1. split; [reflexivity|].
  unfold tag_geometry_with_mats.
  assert (Hloop : mapM_ (tag_entry E ict) (pre ++ e :: post) w =
                  (inr (match r with inl _ => TagTooLong | inr err => err end), w1)).
  { revert w Hpre. induction pre as [|x pre IH]; intros w Hpre; simpl in *.
    - unfold ret in Hpre. inversion Hpre; subst.
      unfold bind. rewrite Hentry. reflexivity.
    - unfold bind in *. destruct (tag_entry E ict x w) as [[[]|err] w2].
      + apply IH. exact Hpre.
      + inversion Hpre; subst. reflexivity. }
  unfold bind at 1. rewrite Hloop. reflexivity.
Qed.

Lemma C4_long_tag_raises_without_group_witness :
  material_tag (tagged_entry "a_material_tag_of_thirty_chars" ["1"])
    = Some "a_material_tag_of_thirty_chars" /\
  (27 < String.length "a_material_tag_of_thirty_chars")%nat /\
  tag_entry one_volume_kernel None (tagged_entry "a_material_tag_of_thirty_chars" ["1"])
    fresh_world = (inr TagTooLong, fresh_world).
Proof.
  assert (H1 : material_tag (tagged_entry "a_material_tag_of_thirty_chars" ["1"])
               = Some "a_material_tag_of_thirty_chars") by reflexivity.
  assert (H2 : (27 < String.length "a_material_tag_of_thirty_chars")%nat) by (simpl; lia).
  split; [exact H1|]. split; [exact H2|].
  exact (proj1 (C4_long_tag_raises_without_group one_volume_kernel None None [] []
                  (tagged_entry "a_material_tag_of_thirty_chars" ["1"])
                  "a_material_tag_of_thirty_chars" fresh_world H1 H2)).
Defined.

Lemma string_append_assoc (a b c : string) :
  ((a ++ b) ++ c)%string = (a ++ b ++ c)%string.
Proof. induction a as [|ch a IH]; simpl; [reflexivity | rewrite IH; reflexivity]. Qed.

Lemma index_last_app_single {A} (xs : list A) (x : A) (w : world) :
  index_last (xs ++ [x]) w = (inl x, w).
Proof. unfold index_last. rewrite rev_app_distr. reflexivity. Qed.

(** The synthesis when the last entry's last volume is the numeral of [n]. *)
Lemma make_graveyard_run (gd : list entry) (e : entry) (vs : list string) (s : string)
    (n : Z) (ict : option string) (L : Z) (w : world) :
  volumes e = Some (vs ++ [s]) -> py_int s = Some n ->
  make_graveyard (gd ++ [e]) ict L w =
    (inl tt, append_log w
       ([("create brick x " ++ Z_str L)%string; ("create brick x " ++ Z_str (L + 5))%string;
         ("subtract vol " ++ Z_str (n + 1) ++ "from vol " ++ Z_str (n + 2))%string;
         ("group " ++ dq ++ "mat:" ++ "Graveyard" ++ dq ++ " add volume " ++ Z_str (n + 3))%string]
        ++ match ict with
           | Some c => [("group " ++ dq ++ "mat:" ++ c ++ "_comp" ++ dq ++ " add vol " ++ Z_str (n + 3))%string]
           | None => []
           end)).
Proof.
  intros Hv Hs. unfold make_graveyard, bind at 1. rewrite index_last_app_single.
  unfold bind at 1, get_volumes. rewrite Hv. simpl lift_opt. unfold ret at 1.
  unfold bind at 1. rewrite index_last_app_single.
  unfold bind at 1. rewrite Hs. simpl lift_opt. unfold ret at 1.
  destruct ict as [c|]; unfold bind, cmd, ret, append_log; cbn [w_log w_sys_path
    w_cubit_imported w_initialized w_files]; rewrite <- !app_assoc; reflexivity.
Qed.

(** C5.  When the tagging loop completes and the last entry's last volume
    is the numeral of [n], the graveyard synthesis appends exactly: a brick
    of side [L], a brick of side [L + 5], the subtraction of volume [n + 1]
    (the inner brick) from volume [n + 2] (the outer one), one group command
    adding the single volume [n + 3] to ["mat:Graveyard"], and, with an
    implicit-complement tag, its companion group command for that volume. *)
Theorem C5_graveyard_shell_commands (E : env) (gd : list entry) (e : entry) (vs : list string)
    (s : string) (n : Z) (ict : option string) (L : Z) (w w1 : world) :
  volumes e = Some (vs ++ [s]) -> py_int s = Some n ->
  mapM_ (tag_entry E ict) (gd ++ [e]) w = (inl tt, w1) ->
  tag_geometry_with_mats E (gd ++ [e]) ict (Some L) w =
    (inl tt, append_log w1
       ([("create brick x " ++ Z_str L)%string; ("create brick x " ++ Z_str (L + 5))%string;
         ("subtract vol " ++ Z_str (n + 1) ++ "from vol " ++ Z_str (n + 2))%string;
         ("group " ++ dq ++ "mat:" ++ "Graveyard" ++ dq ++ " add volume " ++ Z_str (n + 3))%string]
        ++ match ict with
           | Some c => [("group " ++ dq ++ "mat:" ++ c ++ "_comp" ++ dq ++ " add vol " ++ Z_str (n + 3))%string]
           | None => []
           end)).
Proof.
  intros Hv Hs Hloop. unfold tag_geometry_with_mats, bind at 1. rewrite Hloop.
  exact (make_graveyard_run gd e vs s n ict L w1 Hv Hs).
Qed.

Lemma C5_graveyard_shell_commands_witness :
  volumes (tagged_entry "fuel" ["1"]) = Some ([] ++ ["1"]) /\ py_int "1" = Some 1%Z /\
  mapM_ (tag_entry one_volume_kernel None) ([] ++ [tagged_entry "fuel" ["1"]]) fresh_world
    = (inl tt, append_log fresh_world [("group " ++ dq ++ "mat:fuel" ++ dq ++ " add volume 1")%string]) /\
  tag_geometry_with_mats one_volume_kernel ([] ++ [tagged_entry "fuel" ["1"]]) None (Some 100%Z)
    fresh_world =
    (inl tt, append_log (append_log fresh_world [("group " ++ dq ++ "mat:fuel" ++ dq ++ " add volume 1")%string])
       ([("create brick x " ++ Z_str 100)%string; ("create brick x " ++ Z_str (100 + 5))%string;
         ("subtract vol " ++ Z_str (1 + 1) ++ "from vol " ++ Z_str (1 + 2))%string;
         ("group " ++ dq ++ "mat:" ++ "Graveyard" ++ dq ++ " add volume " ++ Z_str (1 + 3))%string] ++ [])).
Proof.
  assert (H1 : volumes (tagged_entry "fuel" ["1"]) = Some ([] ++ ["1"])) by reflexivity.
  assert (H2 : py_int "1" = Some 1%Z) by reflexivity.
  assert (H3 : mapM_ (tag_entry one_volume_kernel None) ([] ++ [tagged_entry "fuel" ["1"]]) fresh_world
    = (inl tt, append_log fresh_world [("group " ++ dq ++ "mat:fuel" ++ dq ++ " add volume 1")%string]))
    by (vm_compute; reflexivity).
  split; [exact H1|]. split; [exact H2|]. split; [exact H3|].
  exact (C5_graveyard_shell_commands one_volume_kernel [] (tagged_entry "fuel" ["1"]) [] "1" 1
           None 100 fresh_world _ H1 H2 H3).
Defined.

(** C10.  Graveyard synthesis either raises before sending any command, or
    sends, as its third command, ["subtract vol " ++ inner ++ "from vol " ++ outer]
    for [inner = n + 1] and [outer = n + 2], whose text contains
    [inner ++ "from vol"] with no space before ["from"]. *)
Theorem C10_subtract_without_space (gd : list entry) (ict : option string) (L : Z)
    (w : world) :
  snd (make_graveyard gd ict L w) = w \/
  exists (n : Z) (rest : list string),
    snd (make_graveyard gd ict L w) =
      append_log w ([("create brick x " ++ Z_str L)%string; ("create brick x " ++ Z_str (L + 5))%string;
                     ("subtract vol " ++ Z_str (n + 1) ++ "from vol " ++ Z_str (n + 2))%string] ++ rest) /\
    substring_of (Z_str (n + 1) ++ "from vol")%string
                 ("subtract vol " ++ Z_str (n + 1) ++ "from vol " ++ Z_str (n + 2))%string.
Proof.
  destruct gd as [|g gd'] using rev_ind.
  - left. reflexivity.
  - destruct (volumes g) as [vols|] eqn:Hv.
    + destruct vols as [|v vs'] using rev_ind.
      * left. unfold make_graveyard, bind at 1. rewrite index_last_app_single.
        unfold bind at 1, get_volumes. rewrite Hv. reflexivity.
      * destruct (py_int v) as [n|] eqn:Hs.
        -- right. exists n, (("group " ++ dq ++ "mat:" ++ "Graveyard" ++ dq ++ " add volume "
                               ++ Z_str (n + 3))%string
                             :: match ict with
                                | Some c => [("group " ++ dq ++ "mat:" ++ c ++ "_comp" ++ dq
                                             ++ " add vol " ++ Z_str (n + 3))%string]
                                | None => []
                                end).
           rewrite (make_graveyard_run gd' g vs' v n ict L w Hv Hs). split; [reflexivity|].
           exists "subtract vol ", (" " ++ Z_str (n + 2))%string.
           rewrite string_append_assoc. reflexivity.
        -- left. unfold make_graveyard, bind at 1. rewrite index_last_app_single.
           unfold bind at 1, get_volumes. rewrite Hv. simpl lift_opt. unfold ret at 1.
           unfold bind at 1. rewrite index_last_app_single.
           unfold bind at 1. rewrite Hs. reflexivity.
    + left. unfold make_graveyard, bind at 1. rewrite index_last_app_single.
      unfold bind at 1, get_volumes. rewrite Hv. reflexivity.
Qed.

(** C6 (code_bug).  Surface 2 of the wedge is curved (not planar) and is
    absent from the record [{1: reflector}], yet the reconciliation adds it
    as a reflector and sends its group and visibility commands, just as for
    the planar quad 3. *)
Theorem C6_curved_new_surface_added_as_reflector :
  surface_is_planar one_volume_kernel 2 [] = false /\
  find_reflecting_surfaces_of_reflecting_wedge one_volume_kernel [wedge_entry [(1%Z, true)]]
    "reflective" false fresh_world =
  (inl ([wedge_entry [(1%Z, true); (2%Z, true); (3%Z, true)]], Some "1"),
   append_log fresh_world
     [("group " ++ dq ++ "reflective" ++ dq ++ " add surf 2")%string; "surface 2 visibility on";
      ("group " ++ dq ++ "reflective" ++ dq ++ " add surf 3")%string; "surface 3 visibility on"]).
Proof. split; vm_compute; reflexivity. Qed.

(** C7 (code_bug).  The record [{7: reflector}] names a surface the wedge
    volume no longer has; deleting it while iterating over the dict's keys
    makes the iteration raise RuntimeError. *)
Theorem C7_stale_reflector_raises :
  zmem 7 (parse_cubit_list one_volume_kernel "surface" " in volume 1" []) = false /\
  find_reflecting_surfaces_of_reflecting_wedge one_volume_kernel [wedge_entry [(7%Z, true)]]
    "reflective" false fresh_world = (inr PyRuntimeError, fresh_world).
Proof. split; vm_compute; reflexivity. Qed.

(** *** The reconciliation loops *)

Lemma zdict_get_del_length {V} (k : Z) (d : list (Z * V)) (v : V) :
  zdict_get k d = Some v -> S (length (zdict_del k d)) = length d.
Proof.
  induction d as [|[k' v'] d IH]; simpl; [discriminate|].
  destruct (Z.eqb k k'); [reflexivity|]. intros H. simpl. rewrite (IH H). reflexivity.
Qed.

Lemma zdict_get_in_keys {V} (k : Z) (d : list (Z * V)) (v : V) :
  zdict_get k d = Some v -> In (k, v) d.
Proof.
  induction d as [|[k' v'] d IH]; simpl; [discriminate|].
  destruct (Z.eqb_spec k k') as [->|_]; [intros H; inversion H; left; reflexivity|].
  intros H. right. exact (IH H).
Qed.

Lemma zdict_get_of_keys {V} (k : Z) (d : list (Z * V)) :
  In k (zdict_keys d) -> exists v, zdict_get k d = Some v.
Proof.
  induction d as [|[k' v'] d IH]; simpl; [contradiction|].
  destruct (Z.eqb_spec k k') as [->|Hne]; [eauto|].
  intros [H|H]; [congruence | exact (IH H)].
Qed.

Lemma zmem_true (k : Z) (xs : list Z) : zmem k xs = true <-> In k xs.
Proof.
  unfold zmem. rewrite existsb_exists. split.
  - intros [x [Hx Heq]]. apply Z.eqb_eq in Heq. subst. exact Hx.
  - intros H. exists k. split; [exact H | apply Z.eqb_refl].
Qed.

Lemma zdict_get_app {V} (k : Z) (d ext : list (Z * V)) :
  zdict_get k (d ++ ext) = match zdict_get k d with Some v => Some v | None => zdict_get k ext end.
Proof.
  induction d as [|[k' v'] d IH]; simpl; [reflexivity|].
  destruct (Z.eqb k k'); [reflexivity | exact IH].
Qed.

(** A completed pruning pass deleted nothing: every reflector it visited is
    live. *)
Lemma prune_stale_ok (live : list Z) (ks : list Z) (d d1 : srecord) (w w1 : world) :
  prune_stale live (length d) ks d w = (inl d1, w1) ->
  d1 = d /\ w1 = w /\
  (forall k, In k ks -> zdict_get k d = Some true -> zmem k live = true).
Proof.
  revert w. induction ks as [|k ks IH]; intros w H; simpl in H;
    rewrite Nat.eqb_refl in H; simpl in H.
  - unfold ret in H. inversion H. split; [reflexivity | split; [reflexivity | contradiction]].
  - unfold bind, lift_opt in H. destruct (zdict_get k d) as [b|] eqn:Hk; [|discriminate].
    unfold ret in H.
    destruct (b && negb (zmem k live)) eqn:Hstale.
    + destruct ks as [|k2 ks']; simpl in H;
        rewrite <- (zdict_get_del_length k d b Hk) in H;
        rewrite (proj2 (Nat.eqb_neq _ _) (Nat.neq_succ_diag_r _)) in H; discriminate.
    + destruct (IH w H) as [Hd [Hw Hall]]. split; [exact Hd|]. split; [exact Hw|].
      intros k' [<-|Hin] Hget; [|exact (Hall k' Hin Hget)].
      rewrite Hk in Hget. inversion Hget; subst b.
      destruct (zmem k live); [reflexivity | discriminate].
Qed.

(** The pruning pass over a record whose reflectors are all live changes
    nothing. *)
Lemma prune_stale_noop (live : list Z) (ks : list Z) (d : srecord) (w : world) :
  (forall k, In k ks -> exists b, zdict_get k d = Some b) ->
  (forall k, zdict_get k d = Some true -> zmem k live = true) ->
  prune_stale live (length d) ks d w = (inl d, w).
Proof.
  intros Hks Hlive. revert w. induction ks as [|k ks IH]; intros w; simpl;
    rewrite Nat.eqb_refl; simpl; [reflexivity|].
  destruct (Hks k (or_introl eq_refl)) as [b Hb].
  unfold bind, lift_opt. rewrite Hb. unfold ret.
  destruct b; simpl.
  - rewrite (Hlive k Hb). simpl. apply IH. intros k' Hk'. apply Hks. right. exact Hk'.
  - apply IH. intros k' Hk'. apply Hks. right. exact Hk'.
Qed.

(** The adding pass appends, as reflectors, live surfaces only, and leaves
    every live surface in the record. *)
Lemma add_new_surfaces_spec (name : string) (live : list Z) (d : srecord) (w : world) :
  exists ext w2,
    add_new_surfaces name live d w = (inl (d ++ ext), w2) /\
    (forall k b, In (k, b) ext -> b = true /\ In k live) /\
    (forall k, In k live -> zmem k (zdict_keys (d ++ ext)) = true).
Proof.
  revert d w. induction live as [|k live IH]; intros d w; simpl.
  - exists [], w. rewrite app_nil_r. split; [reflexivity|]. split; [contradiction|].
    intros k [].
  - destruct (zmem k (zdict_keys d)) eqn:Hk.
    + destruct (IH d w) as [ext [w2 [Hrun [Hext Hkeys]]]].
      exists ext, w2. split; [exact Hrun|]. split.
      * intros k' b Hin. destruct (Hext k' b Hin). split; [assumption | right; assumption].
      * intros k' [<-|Hin]; [|exact (Hkeys k' Hin)].
        unfold zdict_keys in *. rewrite map_app. apply zmem_true. apply in_or_app. left.
        apply zmem_true. exact Hk.
    + unfold bind at 1. unfold cmd at 1. unfold bind at 1. unfold cmd at 1.
      match goal with |- exists _ _, add_new_surfaces _ _ _ ?w' = _ /\ _ => set (w3 := w') end.
      destruct (IH (d ++ [(k, true)]) w3) as [ext [w2 [Hrun [Hext Hkeys]]]].
      exists ((k, true) :: ext), w2. rewrite <- app_assoc in Hrun. split; [exact Hrun|]. split.
      * intros k' b [Heq|Hin]; [inversion Heq; subst; split; [reflexivity | left; reflexivity]|].
        destruct (Hext k' b Hin). split; [assumption | right; assumption].
      * intros k' [<-|Hin].
        -- unfold zdict_keys. rewrite map_app. apply zmem_true. apply in_or_app. right.
           left. reflexivity.
        -- rewrite <- app_assoc in Hkeys. exact (Hkeys k' Hin).
Qed.

(** When every live surface already has a record, the adding pass sends no
    command and changes nothing. *)
Lemma add_new_surfaces_noop (name : string) (live : list Z) (d : srecord) (w : world) :
  (forall k, In k live -> zmem k (zdict_keys d) = true) ->
  add_new_surfaces name live d w = (inl d, w).
Proof.
  intros H. induction live as [|k live IH]; simpl; [reflexivity|].
  rewrite (H k (or_introl eq_refl)). apply IH. intros k' Hk'. apply H. right. exact Hk'.
Qed.

Lemma set_surface_reflectivity_twice (e : entry) (d d' : srecord) :
  set_surface_reflectivity (set_surface_reflectivity e d) d' = set_surface_reflectivity e d'.
Proof. destruct e; reflexivity. Qed.

(** A completed reconciliation of record [d] against the live surfaces of
    the wedge gives a record whose reflectors are live and which lists
    every live surface. *)
Lemma reconcile_wedge_ok (E : env) (name : string) (e : entry) (d d2 : srecord) (wv : string)
    (w w1 : world) :
  reconcile_wedge E name e d w = (inl (d2, wv), w1) ->
  exists vols, volumes e = Some vols /\ wv = join " " vols /\
    let live := parse_cubit_list E "surface" (" in volume " ++ wv) (w_log w) in
    (forall k, zdict_get k d2 = Some true -> zmem k live = true) /\
    (forall k, In k live -> zmem k (zdict_keys d2) = true).
Proof.
  unfold reconcile_wedge, bind at 1, get_volumes, lift_opt.
  destruct (volumes e) as [vols|]; [|discriminate]. unfold ret at 1.
  unfold bind at 1, parse.
  set (live := parse_cubit_list E "surface" (" in volume " ++ join " " vols) (w_log w)).
  unfold bind at 1.
  destruct (prune_stale live (length d) (zdict_keys d) d w) as [[d1|err] w'] eqn:Hp;
    [|discriminate].
  destruct (prune_stale_ok live (zdict_keys d) d d1 w w' Hp) as [-> [-> Hrefl]].
  destruct (add_new_surfaces_spec name live d w) as [ext [w2 [Hrun [Hext Hkeys]]]].
  unfold bind at 1. rewrite Hrun. unfold ret. intros H. inversion H; subst.
  exists vols. split; [reflexivity|]. split; [reflexivity|]. split; [|exact Hkeys].
  intros k Hk. rewrite zdict_get_app in Hk.
  destruct (zdict_get k d) as [b|] eqn:Hd.
  - inversion Hk; subst b. apply (Hrefl k); [|exact Hd].
    apply zdict_get_in_keys in Hd. unfold zdict_keys. apply (in_map fst) in Hd. exact Hd.
  - apply zdict_get_in_keys in Hk. destruct (Hext k true Hk) as [_ Hin].
    apply zmem_true. exact Hin.
Qed.

(** C8.  Once a reconciliation run has returned, running it again on its
    result, while the wedge volume's live surface set is unchanged, returns
    the same entry list and wedge volume, sends no command and changes
    nothing. *)
Theorem C8_reconciliation_idempotent (E : env) (gd gd1 : list entry) (name : string)
    (verbose : bool) (wv : option string) (w w1 : world) :
  find_reflecting_surfaces_of_reflecting_wedge E gd name verbose w = (inl (gd1, wv), w1) ->
  (forall s, wv = Some s ->
     parse_cubit_list E "surface" (" in volume " ++ s) (w_log w1) =
     parse_cubit_list E "surface" (" in volume " ++ s) (w_log w)) ->
  find_reflecting_surfaces_of_reflecting_wedge E gd1 name verbose w1 = (inl (gd1, wv), w1).
Proof.
  revert gd1 wv w1. induction gd as [|e rest IH]; intros gd1 wv w1 H Hlive; simpl in H.
  - unfold ret in H. inversion H; subst. reflexivity.
  - destruct (surface_reflectivity e) as [d|] eqn:Hsr.
    + unfold bind at 1 in H.
      destruct (reconcile_wedge E name e d w) as [[[d2 wedge]|err] w2] eqn:Hrec;
        [|discriminate].
      unfold ret in H. inversion H; subst gd1 wv w2; clear H.
      destruct (reconcile_wedge_ok E name e d d2 wedge w w1 Hrec)
        as [vols [Hvols [Hwv [Hrefl Hkeys]]]].
      specialize (Hlive wedge eq_refl).
      simpl. unfold bind at 1, reconcile_wedge.
      unfold bind at 1, get_volumes. simpl volumes. rewrite Hvols. simpl lift_opt.
      unfold ret at 1. unfold bind at 1, parse. rewrite <- Hwv, Hlive.
      unfold bind at 1.
      rewrite prune_stale_noop; [|intros k Hk; exact (zdict_get_of_keys k d2 Hk) | exact Hrefl].
      unfold bind at 1. rewrite add_new_surfaces_noop; [|exact Hkeys].
      unfold ret. rewrite set_surface_reflectivity_twice. reflexivity.
    + unfold bind at 1 in H.
      destruct (find_reflecting_surfaces_of_reflecting_wedge E rest name verbose w)
        as [[[rest' wv']|err] w2] eqn:Hr; [|discriminate].
      unfold ret in H. inversion H; subst gd1 wv w2; clear H.
      simpl. rewrite Hsr. unfold bind at 1. rewrite (IH rest' wv' w1 eq_refl Hlive). reflexivity.
Qed.

Lemma C8_reconciliation_idempotent_witness :
  find_reflecting_surfaces_of_reflecting_wedge one_volume_kernel [wedge_entry [(1%Z, true)]]
    "reflective" false fresh_world =
    (inl ([wedge_entry [(1%Z, true); (2%Z, true); (3%Z, true)]], Some "1"),
     snd (find_reflecting_surfaces_of_reflecting_wedge one_volume_kernel
            [wedge_entry [(1%Z, true)]] "reflective" false fresh_world)) /\
  find_reflecting_surfaces_of_reflecting_wedge one_volume_kernel
    [wedge_entry [(1%Z, true); (2%Z, true); (3%Z, true)]] "reflective" false
    (snd (find_reflecting_surfaces_of_reflecting_wedge one_volume_kernel
            [wedge_entry [(1%Z, true)]] "reflective" false fresh_world)) =
    (inl ([wedge_entry [(1%Z, true); (2%Z, true); (3%Z, true)]], Some "1"),
     snd (find_reflecting_surfaces_of_reflecting_wedge one_volume_kernel
            [wedge_entry [(1%Z, true)]] "reflective" false fresh_world)).
Proof.
  assert (H1 : find_reflecting_surfaces_of_reflecting_wedge one_volume_kernel
                 [wedge_entry [(1%Z, true)]] "reflective" false fresh_world =
    (inl ([wedge_entry [(1%Z, true); (2%Z, true); (3%Z, true)]], Some "1"),
     snd (find_reflecting_surfaces_of_reflecting_wedge one_volume_kernel
            [wedge_entry [(1%Z, true)]] "reflective" false fresh_world)))
    by (vm_compute; reflexivity).
  split; [exact H1|].
  apply (C8_reconciliation_idempotent one_volume_kernel _ _ "reflective" false _ fresh_world _ H1).
  intros s _. reflexivity.
Defined.

(** *** Exceptions of the loader *)

Lemma raises_only_ret {A} (P : exn -> Prop) (a : A) : raises_only P (ret a).
Proof. intros w x w' H. discriminate. Qed.

Lemma raises_only_raise {A} (P : exn -> Prop) (e : exn) : P e -> raises_only P (@raise A e).
Proof. intros He w x w' H. inversion H. subst. exact He. Qed.

Lemma raises_only_cmd (P : exn -> Prop) (s : string) : raises_only P (cmd s).
Proof. intros w x w' H. discriminate. Qed.

Lemma raises_only_parse (P : exn -> Prop) (E : env) (ty filt : string) :
  raises_only P (parse E ty filt).
Proof. intros w x w' H. discriminate. Qed.

Lemma raises_only_bind {A B} (P : exn -> Prop) (m : M A) (k : A -> M B) :
  raises_only P m -> (forall a, raises_only P (k a)) -> raises_only P (bind m k).
Proof.
  intros Hm Hk w x w' H. unfold bind in H.
  destruct (m w) as [[a|y] w1] eqn:Hw.
  - exact (Hk a w1 x w' H).
  - inversion H; subst. exact (Hm w x w' Hw).
Qed.

Lemma raises_only_when (P : exn -> Prop) (b : bool) (m : M unit) :
  raises_only P m -> raises_only P (when b m).
Proof. destruct b; simpl; auto using raises_only_ret. Qed.

Lemma never_ok_raise {A} (e : exn) : never_ok (@raise A e).
Proof. intros w a w' H. discriminate. Qed.

Lemma never_ok_bind {A B} (m : M A) (k : A -> M B) :
  (forall a, never_ok (k a)) -> never_ok (bind m k).
Proof.
  intros Hk w b w' H. unfold bind in H.
  destruct (m w) as [[a|y] w1]; [exact (Hk a w1 b w' H) | discriminate].
Qed.

Lemma never_ok_bind_first {A B} (m : M A) (k : A -> M B) : never_ok m -> never_ok (bind m k).
Proof.
  intros Hm w b w' H. unfold bind in H.
  destruct (m w) as [[a|y] w1] eqn:Hw; [exact (Hm w a w1 Hw) | discriminate].
Qed.

Lemma bind_never_ok_ext {A B} (m : M A) (k1 k2 : A -> M B) (w : world) :
  never_ok m -> bind m k1 w = bind m k2 w.
Proof.
  intros Hm. unfold bind. destruct (m w) as [[a|y] w1] eqn:Hw; [|reflexivity].
  exfalso. exact (Hm w a w1 Hw).
Qed.

Lemma bind_ext {A B} (m : M A) (k1 k2 : A -> M B) (w : world) :
  (forall a w', k1 a w' = k2 a w') -> bind m k1 w = bind m k2 w.
Proof. intros H. unfold bind. destruct (m w) as [[a|y] w1]; [apply H | reflexivity]. Qed.

(** The exceptions one iteration of the loader can raise: an unsupported
    extension, a missing file, or the TypeError of the two-argument call. *)
Lemma load_entry_raises (E : env) (verbose : bool) (e : entry) :
  raises_only (load_error E e) (load_entry E verbose e).
Proof.
  unfold load_entry, load_error, supported_cad.
  repeat first
    [ progress (intros)
    | apply raises_only_bind
    | apply raises_only_when
    | apply raises_only_cmd
    | apply raises_only_parse
    | apply raises_only_ret
    | match goal with
      | |- raises_only _ (if ?b then _ else _) => destruct b eqn:?
      | |- raises_only _ (match ?x with _ => _ end) => destruct x eqn:?
      end ].
  all: try (apply raises_only_raise).
  all: try (right; right; reflexivity).
  all: try (right; left; split; [reflexivity | cbv zeta in *; congruence]).
  all: left; split; [reflexivity|].
  all: reflexivity.
Qed.

(** An iteration on an entry declaring surface reflectivity never returns. *)
Lemma load_entry_reflectivity_never_ok (E : env) (verbose : bool) (e : entry) :
  surface_reflectivity e <> None -> never_ok (load_entry E verbose e).
Proof.
  intros Hsr. unfold load_entry.
  repeat first
    [ progress (intros)
    | match goal with
      | |- never_ok (match surface_reflectivity ?e' with _ => _ end) =>
          change (surface_reflectivity e') with (surface_reflectivity e);
          destruct (surface_reflectivity e); [|contradiction]
      | |- never_ok (bind (call_find_all_surfaces _ _) _) =>
          apply never_ok_bind_first; apply never_ok_raise
      | |- never_ok (if ?b then _ else _) => destruct b eqn:?
      end
    | apply never_ok_bind
    | apply never_ok_raise ].
Qed.

Lemma raises_only_mono {A} (P Q : exn -> Prop) (m : M A) :
  (forall x, P x -> Q x) -> raises_only P m -> raises_only Q m.
Proof. intros HPQ Hm w x w' H. exact (HPQ x (Hm w x w' H)). Qed.

(** Every exception of the loop comes from loading one of its entries. *)
Lemma load_loop_raises (E : env) (verbose : bool) (es : list entry) (av : option (list Z)) :
  raises_only (fun x => exists e, In e es /\ load_error E e x) (load_loop E verbose es av).
Proof.
  revert av. induction es as [|e es IH]; intros av; simpl.
  - apply raises_only_ret.
  - apply raises_only_bind.
    + apply (raises_only_mono (load_error E e)); [|apply load_entry_raises].
      intros x Hx. exists e. split; [left; reflexivity | exact Hx].
    + intros [e' av']. apply raises_only_bind.
      * apply (raises_only_mono (fun x => exists e0, In e0 es /\ load_error E e0 x)); [|apply IH].
        intros x [e0 [Hin Hx]]. exists e0. split; [right; exact Hin | exact Hx].
      * intros [es'' av'']. apply raises_only_ret.
Qed.

(** The loop never returns once one of its entries declares surface
    reflectivity. *)
Lemma load_loop_never_ok (E : env) (verbose : bool) (es : list entry) (av : option (list Z))
    (e : entry) :
  In e es -> surface_reflectivity e <> None -> never_ok (load_loop E verbose es av).
Proof.
  intros Hin Hsr. revert av. induction es as [|e0 es IH]; intros av; [destruct Hin|].
  simpl. destruct Hin as [->|Hin].
  - apply never_ok_bind_first. apply load_entry_reflectivity_never_ok. exact Hsr.
  - apply never_ok_bind. intros [e' av']. apply never_ok_bind_first. exact (IH Hin _).
Qed.

Lemma find_number_raises (E : env) (es : list entry) (verbose : bool) :
  raises_only (fun x => x = UnboundLocal \/ exists e, In e es /\ load_error E e x)
    (find_number_of_volumes_in_each_step_file E es verbose).
Proof.
  unfold find_number_of_volumes_in_each_step_file. apply raises_only_bind.
  - apply (raises_only_mono (fun x => exists e, In e es /\ load_error E e x));
      [intros x Hx; right; exact Hx | apply load_loop_raises].
  - intros [es' av]. repeat (apply raises_only_bind; [apply raises_only_cmd|]; intros _).
    apply raises_only_bind; [|intros; apply raises_only_ret].
    destruct av; [apply raises_only_ret | apply raises_only_raise; left; reflexivity].
Qed.

Lemma find_number_never_ok (E : env) (es : list entry) (verbose : bool) (e : entry) :
  In e es -> surface_reflectivity e <> None ->
  never_ok (find_number_of_volumes_in_each_step_file E es verbose).
Proof.
  intros Hin Hsr. unfold find_number_of_volumes_in_each_step_file.
  apply never_ok_bind_first. exact (load_loop_never_ok E verbose es None e Hin Hsr).
Qed.

Lemma bind_never_ok_inr {A B} (m : M A) (k : A -> M B) (w : world) :
  never_ok m -> exists x w', m w = (inr x, w') /\ bind m k w = (inr x, w').
Proof.
  intros Hm. unfold bind. destruct (m w) as [[a|x] w'] eqn:Hw.
  - exfalso. exact (Hm w a w' Hw).
  - exists x, w'. split; reflexivity.
Qed.

(** C9 (counterexample).  A run declaring surface reflectivity for a file
    that does not exist fails with FileNotFound, not with a TypeError: the
    existence check comes before the two-argument call. *)
Example C9_missing_wedge_file_raises_file_not_found :
  fst (cad_to_h5m_defaults no_files_kernel [wedge_entry [(1%Z, true)]] "dagmc.h5m" None
         fresh_world) = inr FileNotFound.
Proof. vm_compute. reflexivity. Qed.

(** C9 (amended).  When some entry declares surface reflectivity, loading
    never returns: it raises UnsupportedInputFormat or FileNotFound for an
    entry with a bad extension or a missing file, or else the TypeError of
    the two-argument call to [find_all_surfaces_of_reflecting_wedge]; when
    every file has a supported extension and exists, the error is the
    TypeError.  The whole run of [cad_to_h5m] then ends, with an error, in
    the state reached by its setup followed by loading: no transform,
    tagging, imprint, merge, reflector search or export runs. *)
Theorem C9_reflectivity_load_fails (E : env) (files : list entry) (e : entry)
    (h5m_filename : option string) (cubit_path : string) (cubit_filename : option string)
    (merge_tolerance faceting_tolerance : pyval) (make_watertight imprint : bool)
    (geometry_details_filename : option string) (surface_reflectivity_name : string)
    (exo_filename implicit_complement_material_tag : option string) (verbose : bool)
    (graveyard : option Z) (w : world) :
  In e files -> surface_reflectivity e <> None ->
  (exists x w1,
     find_number_of_volumes_in_each_step_file E files verbose w = (inr x, w1) /\
     (exists e', In e' files /\ load_error E e' x) /\
     ((forall e', In e' files ->
         supported_cad (cad_filename e') = true /\ is_file E (cad_filename e') = true) ->
      x = PyTypeError)) /\
  cad_to_h5m E files h5m_filename cubit_path cubit_filename merge_tolerance
    faceting_tolerance make_watertight imprint geometry_details_filename
    surface_reflectivity_name exo_filename implicit_complement_material_tag verbose
    graveyard w =
  (check_suffix h5m_filename [".h5m"] InvalidOutputExtension ;;;
   check_suffix exo_filename [".exo"] InvalidExoExtension ;;;
   check_suffix cubit_filename [".cub"; ".cub5"] InvalidCubitExtension ;;;
   sys_path_append cubit_path ;;;
   import_cubit E ;;;
   cubit_init ;;;
   when (negb verbose)
     (cmd "set echo off" ;;; cmd "set info off" ;;; cmd "set journal off" ;;;
      cmd "set warning off") ;;;
   find_number_of_volumes_in_each_step_file E files verbose ;;;
   ret h5m_filename) w /\
  (exists x w', cad_to_h5m E files h5m_filename cubit_path cubit_filename merge_tolerance
    faceting_tolerance make_watertight imprint geometry_details_filename
    surface_reflectivity_name exo_filename implicit_complement_material_tag verbose
    graveyard w = (inr x, w')).
Proof.
  intros Hin Hsr.
  pose proof (load_loop_never_ok E verbose files None e Hin Hsr) as Hloop.
  pose proof (find_number_never_ok E files verbose e Hin Hsr) as Hfind.
  assert (Heq : cad_to_h5m E files h5m_filename cubit_path cubit_filename merge_tolerance
    faceting_tolerance make_watertight imprint geometry_details_filename
    surface_reflectivity_name exo_filename implicit_complement_material_tag verbose
    graveyard w =
  (check_suffix h5m_filename [".h5m"] InvalidOutputExtension ;;;
   check_suffix exo_filename [".exo"] InvalidExoExtension ;;;
   check_suffix cubit_filename [".cub"; ".cub5"] InvalidCubitExtension ;;;
   sys_path_append cubit_path ;;;
   import_cubit E ;;;
   cubit_init ;;;
   when (negb verbose)
     (cmd "set echo off" ;;; cmd "set info off" ;;; cmd "set journal off" ;;;
      cmd "set warning off") ;;;
   find_number_of_volumes_in_each_step_file E files verbose ;;;
   ret h5m_filename) w).
  { unfold cad_to_h5m. do 7 (apply bind_ext; intros ? ?).
    apply bind_never_ok_ext. exact Hfind. }
  split; [|split; [exact Heq|]].
  - unfold find_number_of_volumes_in_each_step_file.
    destruct (bind_never_ok_inr (load_loop E verbose files None)
                (fun r => let (es, all_vols) := r in
                          cmd "separate body all" ;;; cmd "validate vol all" ;;;
                          av <- lift_opt UnboundLocal all_vols ;;
                          ret (es, fold_left Z.add av 0%Z)) w Hloop)
      as [x [w1 [Hl Hb]]].
    exists x, w1. split; [exact Hb|].
    destruct (load_loop_raises E verbose files None w x w1 Hl) as [e' [Hin' Hx]].
    split; [exists e'; split; assumption|].
    intros Hall. destruct (Hall e' Hin') as [Hs Hf].
    destruct Hx as [[_ Hs']|[[_ Hf']|Hx]]; [congruence|congruence|exact Hx].
  - rewrite Heq.
    destruct ((check_suffix h5m_filename [".h5m"] InvalidOutputExtension ;;;
   check_suffix exo_filename [".exo"] InvalidExoExtension ;;;
   check_suffix cubit_filename [".cub"; ".cub5"] InvalidCubitExtension ;;;
   sys_path_append cubit_path ;;;
   import_cubit E ;;;
   cubit_init ;;;
   when (negb verbose)
     (cmd "set echo off" ;;; cmd "set info off" ;;; cmd "set journal off" ;;;
      cmd "set warning off") ;;;
   find_number_of_volumes_in_each_step_file E files verbose ;;;
   ret h5m_filename) w) as [[a|x] w'] eqn:Hw.
    + exfalso. revert Hw. apply never_ok_bind.
      do 6 (intros; apply never_ok_bind). intros. apply never_ok_bind_first. exact Hfind.
    + exists x, w'. reflexivity.
Qed.

Lemma C9_reflectivity_load_fails_witness :
  In (wedge_entry [(1%Z, true)]) [wedge_entry [(1%Z, true)]] /\
  surface_reflectivity (wedge_entry [(1%Z, true)]) <> None /\
  fst (find_number_of_volumes_in_each_step_file one_volume_kernel
         [wedge_entry [(1%Z, true)]] true fresh_world) = inr PyTypeError.
Proof.
  split; [left; reflexivity|]. split; [discriminate|].
  destruct (C9_reflectivity_load_fails one_volume_kernel [wedge_entry [(1%Z, true)]]
              (wedge_entry [(1%Z, true)]) (Some "dagmc.h5m") "/opt/Coreform-Cubit-2021.5/bin/"
              None (PFloat "0.0001") (PFloat "0.01") true true None "reflective" None None
              true None fresh_world (or_introl eq_refl) ltac:(discriminate))
    as [[x [w1 [Hrun [_ Hty]]]] _].
  rewrite Hrun. simpl. f_equal. apply Hty.
  intros e' [<-|[]]. split; vm_compute; reflexivity.
Defined.

(** ** Further properties of the loader, the checks, tagging, transforms,
    reconciliation and output *)

Lemma bind_inl_inv {A B} (m : M A) (k : A -> M B) (w : world) (b : B) (w' : world) :
  bind m k w = (inl b, w') -> exists a w1, m w = (inl a, w1) /\ k a w1 = (inl b, w').
Proof.
  unfold bind. destruct (m w) as [[a|x] w1]; [|discriminate]. intros H. exists a, w1. auto.
Qed.


(** With no files, the loader still sends the separate and validate commands
    and then raises UnboundLocalError: [all_vols] is never assigned. *)
Theorem find_number_of_volumes_empty_unbound (E : env) (verbose : bool) (w : world) :
  find_number_of_volumes_in_each_step_file E [] verbose w =
  (inr UnboundLocal, append_log w ["separate body all"; "validate vol all"]).
Proof.
  cbv [find_number_of_volumes_in_each_step_file load_loop bind cmd lift_opt ret raise
       append_log].
  cbn [w_log w_sys_path w_cubit_imported w_initialized w_files].
  rewrite <- app_assoc. reflexivity.
Qed.

(** A first file whose name ends in none of .stp, .step, .sat raises
    the unsupported-format error before any command is sent. *)
Theorem find_number_of_volumes_unsupported_first (E : env) (e : entry) (es : list entry)
    (verbose : bool) (w : world) :
  supported_cad (cad_filename e) = false ->
  find_number_of_volumes_in_each_step_file E (e :: es) verbose w
  = (inr UnsupportedInputFormat, w).
Proof.
  unfold supported_cad. intros H. apply orb_false_iff in H. destruct H as [H1 H2].
  unfold find_number_of_volumes_in_each_step_file. simpl. unfold load_entry.
  unfold bind at 3, bind at 2, bind at 1. simpl. rewrite H1, H2. reflexivity.
Qed.

Lemma find_number_of_volumes_unsupported_first_witness :
  supported_cad (cad_filename (plain_entry "part.iges")) = false /\
  find_number_of_volumes_in_each_step_file one_volume_kernel [plain_entry "part.iges"] true
    fresh_world = (inr UnsupportedInputFormat, fresh_world).
Proof.
  assert (H : supported_cad (cad_filename (plain_entry "part.iges")) = false) by (vm_compute; reflexivity).
  split; [exact H|].
  exact (find_number_of_volumes_unsupported_first one_volume_kernel (plain_entry "part.iges") []
           true fresh_world H).
Defined.

(** A first file with a supported ending that does not exist raises
    FileNotFoundError before any command is sent. *)
Theorem find_number_of_volumes_missing_file_first (E : env) (e : entry) (es : list entry)
    (verbose : bool) (w : world) :
  supported_cad (cad_filename e) = true -> is_file E (cad_filename e) = false ->
  find_number_of_volumes_in_each_step_file E (e :: es) verbose w = (inr FileNotFound, w).
Proof.
  unfold supported_cad. intros Hs Hf.
  unfold find_number_of_volumes_in_each_step_file. simpl. unfold load_entry.
  unfold bind at 3, bind at 2, bind at 1. simpl.
  destruct (ends_with ".stp" (cad_filename e) || ends_with ".step" (cad_filename e)) eqn:H1.
  - simpl. unfold bind at 1. rewrite Hf. reflexivity.
  - simpl in Hs. rewrite Hs. simpl. unfold bind at 1. rewrite Hf. reflexivity.
Qed.

Lemma find_number_of_volumes_missing_file_first_witness :
  supported_cad (cad_filename (wedge_entry [])) = true /\
  is_file no_files_kernel (cad_filename (wedge_entry [])) = false /\
  find_number_of_volumes_in_each_step_file no_files_kernel [wedge_entry []] true fresh_world
    = (inr FileNotFound, fresh_world).
Proof.
  assert (H1 : supported_cad (cad_filename (wedge_entry [])) = true) by (vm_compute; reflexivity).
  assert (H2 : is_file no_files_kernel (cad_filename (wedge_entry [])) = false) by reflexivity.
  split; [exact H1|]. split; [exact H2|].
  exact (find_number_of_volumes_missing_file_first no_files_kernel (wedge_entry []) [] true
           fresh_world H1 H2).
Defined.



(** A check on an absent name, or on a name with an allowed suffix, passes
    and changes nothing. *)
Lemma check_suffix_pass (fname : option string) (allowed : list string) (x : exn) (w : world) :
  match fname with Some f => In (path_suffix f) allowed | None => True end ->
  check_suffix fname allowed x w = (inl tt, w).
Proof.
  destruct fname as [f|]; [|reflexivity]. intros Hin. unfold check_suffix.
  replace (existsb (String.eqb (path_suffix f)) allowed) with true; [reflexivity|].
  symmetry. apply existsb_exists. exists (path_suffix f). split; [exact Hin | apply String.eqb_refl].
Qed.

Lemma check_suffix_fail (f : string) (allowed : list string) (x : exn) (w : world) :
  ~ In (path_suffix f) allowed -> check_suffix (Some f) allowed x w = (inr x, w).
Proof.
  intros Hn. unfold check_suffix.
  replace (existsb (String.eqb (path_suffix f)) allowed) with false; [reflexivity|].
  symmetry. apply not_true_iff_false. intros H. apply existsb_exists in H.
  destruct H as [a [Ha Heq]]. apply String.eqb_eq in Heq. subst. contradiction.
Qed.

(** With a valid (or absent) h5m name, an exodus name whose suffix is not
    .exo raises before anything else happens. *)
Theorem cad_to_h5m_bad_exo_suffix (E : env) (files : list entry) (h5m : option string)
    (cubit_path : string) (cubit_filename : option string) (merge_tolerance faceting_tolerance : pyval)
    (make_watertight imprint : bool) (gdf : option string) (srn : string) (x : string)
    (ict : option string) (verbose : bool) (graveyard : option Z) (w : world) :
  match h5m with Some h => path_suffix h = ".h5m" | None => True end ->
  path_suffix x <> ".exo" ->
  cad_to_h5m E files h5m cubit_path cubit_filename merge_tolerance faceting_tolerance
    make_watertight imprint gdf srn (Some x) ict verbose graveyard w = (inr InvalidExoExtension, w).
Proof.
  intros Hh Hx. unfold cad_to_h5m, bind at 1.
  rewrite check_suffix_pass; [|destruct h5m; [left; symmetry; exact Hh | exact I]].
  unfold bind at 1. rewrite check_suffix_fail; [reflexivity|].
  intros [H|[]]. apply Hx. symmetry. exact H.
Qed.

(** With valid h5m and exodus names, a cubit name whose suffix is neither
    .cub nor .cub5 raises before anything else happens. *)
Theorem cad_to_h5m_bad_cubit_suffix (E : env) (files : list entry) (h5m : option string)
    (cubit_path : string) (c : string) (merge_tolerance faceting_tolerance : pyval)
    (make_watertight imprint : bool) (gdf : option string) (srn : string) (exo : option string)
    (ict : option string) (verbose : bool) (graveyard : option Z) (w : world) :
  match h5m with Some h => path_suffix h = ".h5m" | None => True end ->
  match exo with Some x => path_suffix x = ".exo" | None => True end ->
  path_suffix c <> ".cub" -> path_suffix c <> ".cub5" ->
  cad_to_h5m E files h5m cubit_path (Some c) merge_tolerance faceting_tolerance
    make_watertight imprint gdf srn exo ict verbose graveyard w = (inr InvalidCubitExtension, w).
Proof.
  intros Hh Hx Hc1 Hc2. unfold cad_to_h5m, bind at 1.
  rewrite check_suffix_pass; [|destruct h5m; [left; symmetry; exact Hh | exact I]].
  unfold bind at 1.
  rewrite check_suffix_pass; [|destruct exo; [left; symmetry; exact Hx | exact I]].
  unfold bind at 1. rewrite check_suffix_fail; [reflexivity|].
  intros [H|[H|[]]]; [apply Hc1 | apply Hc2]; symmetry; exact H.
Qed.

(** When the binding cannot be imported, the run stops with the import
    error before any command, with [cubit_path] left on [sys.path]. *)
Theorem cad_to_h5m_import_failure (E : env) (files : list entry) (h5m : option string)
    (cubit_path : string) (cubit_filename : option string) (merge_tolerance faceting_tolerance : pyval)
    (make_watertight imprint : bool) (gdf : option string) (srn : string) (exo : option string)
    (ict : option string) (verbose : bool) (graveyard : option Z) (w : world) :
  match h5m with Some h => path_suffix h = ".h5m" | None => True end ->
  match exo with Some x => path_suffix x = ".exo" | None => True end ->
  match cubit_filename with Some c => path_suffix c = ".cub" \/ path_suffix c = ".cub5"
                       | None => True end ->
  cubit_importable E (w_sys_path w ++ [cubit_path]) = false ->
  cad_to_h5m E files h5m cubit_path cubit_filename merge_tolerance faceting_tolerance
    make_watertight imprint gdf srn exo ict verbose graveyard w =
  (inr KernelUnavailable,
   {| w_log := w_log w; w_sys_path := w_sys_path w ++ [cubit_path];
      w_cubit_imported := w_cubit_imported w; w_initialized := w_initialized w;
      w_files := w_files w |}).
Proof.
  intros Hh Hx Hc Himp. unfold cad_to_h5m, bind at 1.
  rewrite check_suffix_pass; [|destruct h5m; [left; symmetry; exact Hh | exact I]].
  unfold bind at 1.
  rewrite check_suffix_pass; [|destruct exo; [left; symmetry; exact Hx | exact I]].
  unfold bind at 1.
  rewrite check_suffix_pass;
    [|destruct cubit_filename; [destruct Hc as [H|H]; rewrite H; simpl; auto | exact I]].
  unfold bind at 1, sys_path_append. unfold bind at 1, import_cubit. simpl.
  rewrite Himp. reflexivity.
Qed.


Lemma save_output_files_no_h5m_never_ok (mw : bool) (gd : list entry)
    (cub gdf : option string) (ft : pyval) (exo : option string) (verbose : bool) :
  never_ok (save_output_files mw gd None cub gdf ft exo verbose).
Proof.
  unfold save_output_files. apply never_ok_bind. intros _. apply never_ok_bind. intros _.
  apply never_ok_bind_first. apply never_ok_raise.
Qed.

(** [h5m_filename=None] passes the output-name check, but such a run never
    returns: it raises at the export step or earlier. *)
Theorem cad_to_h5m_no_h5m_never_returns (E : env) (files : list entry)
    (cubit_path : string) (cubit_filename : option string) (merge_tolerance faceting_tolerance : pyval)
    (make_watertight imprint : bool) (gdf : option string) (srn : string) (exo : option string)
    (ict : option string) (verbose : bool) (graveyard : option Z) (w : world) :
  check_suffix None [".h5m"] InvalidOutputExtension w = (inl tt, w) /\
  exists x w', cad_to_h5m E files None cubit_path cubit_filename merge_tolerance
    faceting_tolerance make_watertight imprint gdf srn exo ict verbose graveyard w = (inr x, w').
Proof.
  split; [reflexivity|].
  assert (H : never_ok (cad_to_h5m E files None cubit_path cubit_filename merge_tolerance
    faceting_tolerance make_watertight imprint gdf srn exo ict verbose graveyard)).
  { unfold cad_to_h5m.
    repeat first
      [ apply never_ok_bind_first; apply save_output_files_no_h5m_never_ok
      | apply never_ok_bind; let r := fresh "r" in intros r;
        match type of r with prod _ _ => destruct r | _ => idtac end ]. }
  destruct (cad_to_h5m E files None cubit_path cubit_filename merge_tolerance
    faceting_tolerance make_watertight imprint gdf srn exo ict verbose graveyard w)
    as [[a|x] w'] eqn:Hw.
  - exfalso. exact (H w a w' Hw).
  - exists x, w'. reflexivity.
Qed.

Lemma cad_to_h5m_bad_exo_suffix_witness :
  path_suffix "dagmc.h5m" = ".h5m" /\ path_suffix "mesh.e" <> ".exo" /\
  cad_to_h5m one_volume_kernel [plain_entry "part.stp"] (Some "dagmc.h5m") "/opt/" None
    (PFloat "0.0001") (PFloat "0.01") true true None "reflective" (Some "mesh.e") None true None
    fresh_world = (inr InvalidExoExtension, fresh_world).
Proof.
  assert (H1 : path_suffix "dagmc.h5m" = ".h5m") by (vm_compute; reflexivity).
  assert (H2 : path_suffix "mesh.e" <> ".exo") by (vm_compute; discriminate).
  split; [exact H1|]. split; [exact H2|].
  exact (cad_to_h5m_bad_exo_suffix one_volume_kernel [plain_entry "part.stp"] (Some "dagmc.h5m")
           "/opt/" None (PFloat "0.0001") (PFloat "0.01") true true None "reflective" "mesh.e"
           None true None fresh_world H1 H2).
Defined.

Lemma cad_to_h5m_bad_cubit_suffix_witness :
  path_suffix "out.cubit" <> ".cub" /\ path_suffix "out.cubit" <> ".cub5" /\
  cad_to_h5m one_volume_kernel [plain_entry "part.stp"] None "/opt/" (Some "out.cubit")
    (PFloat "0.0001") (PFloat "0.01") true true None "reflective" None None true None
    fresh_world = (inr InvalidCubitExtension, fresh_world).
Proof.
  assert (H1 : path_suffix "out.cubit" <> ".cub") by (vm_compute; discriminate).
  assert (H2 : path_suffix "out.cubit" <> ".cub5") by (vm_compute; discriminate).
  split; [exact H1|]. split; [exact H2|].
  exact (cad_to_h5m_bad_cubit_suffix one_volume_kernel [plain_entry "part.stp"] None "/opt/"
           "out.cubit" (PFloat "0.0001") (PFloat "0.01") true true None "reflective" None
           None true None fresh_world I I H1 H2).
Defined.

Lemma cad_to_h5m_import_failure_witness :
  cubit_importable no_cubit_kernel (w_sys_path fresh_world ++ ["/opt/"]) = false /\
  cad_to_h5m no_cubit_kernel [plain_entry "part.stp"] None "/opt/" None
    (PFloat "0.0001") (PFloat "0.01") true true None "reflective" None None true None
    fresh_world =
  (inr KernelUnavailable,
   {| w_log := []; w_sys_path := ["/opt/"]; w_cubit_imported := false;
      w_initialized := false; w_files := [] |}).
Proof.
  assert (H : cubit_importable no_cubit_kernel (w_sys_path fresh_world ++ ["/opt/"]) = false)
    by reflexivity.
  split; [exact H|].
  exact (cad_to_h5m_import_failure no_cubit_kernel [plain_entry "part.stp"] None "/opt/" None
           (PFloat "0.0001") (PFloat "0.01") true true None "reflective" None None true None
           fresh_world I I I H).
Defined.



(** With a graveyard requested and no entry, [geometry_details[-1]] raises
    IndexError before any command. *)
Theorem tag_geometry_with_mats_empty_graveyard (E : env) (ict : option string) (g : Z)
    (w : world) :
  tag_geometry_with_mats E [] ict (Some g) w = (inr PyIndexError, w).
Proof. reflexivity. Qed.

(** When the last entry has an empty volume list, the graveyard synthesis
    raises IndexError before creating any brick. *)
Theorem make_graveyard_empty_last_volumes (gd : list entry) (e : entry) (ict : option string)
    (g : Z) (w : world) :
  volumes e = Some [] -> make_graveyard (gd ++ [e]) ict g w = (inr PyIndexError, w).
Proof.
  intros Hv. unfold make_graveyard, bind at 1. rewrite index_last_app_single.
  unfold bind at 1, get_volumes. rewrite Hv. reflexivity.
Qed.

Lemma make_graveyard_empty_last_volumes_witness :
  volumes (tagged_entry "steel" []) = Some [] /\
  make_graveyard [tagged_entry "steel" []] None 100 fresh_world = (inr PyIndexError, fresh_world).
Proof.
  split; [reflexivity|].
  exact (make_graveyard_empty_last_volumes [] (tagged_entry "steel" []) None 100 fresh_world
           eq_refl).
Defined.

(** The loop body on an entry with a material tag of at most 27 characters:
    one group command for the tag; for a tag equal to "graveyard" ignoring
    case, with an implicit-complement tag, also the companion group command
    for the first volume, or IndexError when there is none. *)
Theorem tag_entry_tagged (E : env) (ict : option string) (e : entry) (t : string)
    (vols : list string) (w : world) :
  material_tag e = Some t -> (String.length t <= 27)%nat -> volumes e = Some vols ->
  let group := ("group " ++ dq ++ "mat:" ++ t ++ dq ++ " add volume " ++ join " " vols)%string in
  tag_entry E ict e w =
  match String.eqb (lower t) "graveyard", ict, vols with
  | true, Some c, v :: _ =>
      (inl tt, append_log w [group; ("group " ++ dq ++ "mat:" ++ c ++ "_comp" ++ dq
                                     ++ " add vol " ++ v)%string])
  | true, Some _, [] => (inr PyIndexError, append_log w [group])
  | _, _, _ => (inl tt, append_log w [group])
  end.
Proof.
  intros Ht Hlen Hv group. unfold tag_entry. rewrite Ht.
  replace (27 <? String.length t)%nat with false by (symmetry; apply Nat.ltb_ge; exact Hlen).
  unfold bind at 1, get_volumes. rewrite Hv. unfold lift_opt, ret at 1.
  unfold bind at 1, cmd at 1.
  destruct (String.eqb (lower t) "graveyard"); simpl; [|reflexivity].
  destruct ict as [c|]; [|reflexivity].
  destruct vols as [|v vs]; unfold bind, index, lift_opt, raise, ret, cmd, append_log; simpl;
    [reflexivity|].
  rewrite <- app_assoc. reflexivity.
Qed.

Lemma tag_entry_tagged_witness :
  material_tag (tagged_entry "GraveYard" ["5"; "6"]) = Some "GraveYard" /\
  (String.length "GraveYard" <= 27)%nat /\
  volumes (tagged_entry "GraveYard" ["5"; "6"]) = Some ["5"; "6"] /\
  tag_entry one_volume_kernel (Some "vacuum") (tagged_entry "GraveYard" ["5"; "6"]) fresh_world
  = (inl tt, append_log fresh_world
       [("group " ++ dq ++ "mat:GraveYard" ++ dq ++ " add volume 5 6")%string;
        ("group " ++ dq ++ "mat:vacuum_comp" ++ dq ++ " add vol 5")%string]).
Proof.
  split; [reflexivity|]. split; [cbv; lia|]. split; [reflexivity|].
  exact (tag_entry_tagged one_volume_kernel (Some "vacuum") (tagged_entry "GraveYard" ["5"; "6"])
           "GraveYard" ["5"; "6"] fresh_world eq_refl ltac:(cbv; lia) eq_refl).
Defined.




(** [move_each] from position [length pre] of the target list. *)
Lemma move_each_run (pre targets : list pyval) (movs : list (list pyval)) (w : world) :
  move_each (PList (pre ++ targets)) (map PList movs) (length pre) w =
  ((if (length movs <=? length targets)%nat then inl tt else inr PyIndexError),
   append_log w (map (fun p => ("volume " ++ py_str (fst p) ++ "  move  "
                                ++ join " " (map py_str (snd p)))%string)
                     (combine targets movs))).
Proof.
  revert pre targets w. induction movs as [|mov movs IH]; intros pre targets w.
  - destruct targets; simpl; rewrite append_log_nil; reflexivity.
  - cbn [map move_each]. unfold bind at 1, iter_of, lift_opt. cbn [py_iter]. unfold ret at 1.
    unfold bind at 1, item. cbv iota beta. unfold index, lift_opt.
    rewrite nth_error_app2 by lia. rewrite Nat.sub_diag.
    destruct targets as [|t targets]; cbn [nth_error combine map length Nat.leb fst snd].
    + rewrite append_log_nil. reflexivity.
    + unfold ret at 1. unfold bind at 1, cmd at 1.
      replace (S (length pre)) with (length (pre ++ [t]))
        by (rewrite length_app; simpl; lia).
      replace (pre ++ t :: targets) with ((pre ++ [t]) ++ targets)
        by (rewrite <- app_assoc; reflexivity).
      rewrite IH. unfold append_log.
      cbn [w_log w_sys_path w_cubit_imported w_initialized w_files].
      rewrite <- app_assoc. reflexivity.
Qed.

(** A ["move"] value [(targets, [m0, m1, ...])] whose movements are lists
    moves [targets[i]] by [m_i]; with more movements than targets, the
    commands for the first [len(targets)] are sent and IndexError follows;
    surplus targets are not moved. *)
Theorem move_volume_per_volume (e : entry) (tr : list (string * pyval))
    (targets : list pyval) (movs : list (list pyval)) (w : world) :
  transforms e = Some tr ->
  dict_get "move" tr = Some (PTuple [PList targets; PList (map PList movs)]) ->
  movs <> [] ->
  move_volume e w =
  ((if (length movs <=? length targets)%nat then inl tt else inr PyIndexError),
   append_log w (map (fun p => ("volume " ++ py_str (fst p) ++ "  move  "
                                ++ join " " (map py_str (snd p)))%string)
                     (combine targets movs))).
Proof.
  intros Htr Hmv Hne. unfold move_volume, bind at 1, transform_value, bind at 1.
  rewrite Htr. unfold lift_opt at 1, ret at 1. rewrite Hmv. unfold lift_opt, ret at 1.
  simpl is_tuple. cbv iota beta.
  destruct movs as [|m0 movs']; [contradiction|].
  unfold bind at 1, item at 1, index, lift_opt. simpl nth_error. unfold ret at 1.
  unfold bind at 1, item at 1, index, lift_opt. simpl nth_error. unfold ret at 1.
  simpl is_list. cbv iota beta.
  unfold bind at 1, iter_of, lift_opt. simpl py_iter. unfold ret at 1.
  unfold bind at 1, item at 1, index, lift_opt. simpl nth_error. unfold ret at 1.
  exact (move_each_run [] targets (m0 :: movs') w).
Qed.

Lemma move_volume_per_volume_witness :
  let tr := [("move", PTuple [PList [PInt 3; PInt 7];
                              PList [PList [PInt 0; PInt 0; PInt 10];
                                     PList [PInt 0; PInt 0; PInt (-10)];
                                     PList [PInt 1; PInt 1; PInt 1]]])] in
  let e := {| cad_filename := "part.stp"; material_tag := None; tet_mesh := None;
              transforms := Some tr; surface_reflectivity := None; volumes := Some ["3"; "7"] |} in
  transforms e = Some tr /\
  dict_get "move" tr = Some (PTuple [PList [PInt 3; PInt 7];
                                     PList (map PList [[PInt 0; PInt 0; PInt 10];
                                                       [PInt 0; PInt 0; PInt (-10)];
                                                       [PInt 1; PInt 1; PInt 1]])]) /\
  move_volume e fresh_world =
  (inr PyIndexError, append_log fresh_world ["volume 3  move  0 0 10"; "volume 7  move  0 0 -10"]).
Proof.
  intros tr e.
  assert (H : move_volume e fresh_world =
    ((if (length [[PInt 0; PInt 0; PInt 10]; [PInt 0; PInt 0; PInt (-10)];
                  [PInt 1; PInt 1; PInt 1]] <=? length [PInt 3; PInt 7])%nat
      then inl tt else inr PyIndexError),
     append_log fresh_world (map (fun p => ("volume " ++ py_str (fst p) ++ "  move  "
                                ++ join " " (map py_str (snd p)))%string)
        (combine [PInt 3; PInt 7] [[PInt 0; PInt 0; PInt 10]; [PInt 0; PInt 0; PInt (-10)];
                                   [PInt 1; PInt 1; PInt 1]]))))
    by (apply (move_volume_per_volume e tr); [reflexivity | reflexivity | discriminate]).
  split; [reflexivity|]. split; [reflexivity|].
  rewrite H. vm_compute. reflexivity.
Defined.

(** [rotate_volume]: an empty rotation list raises IndexError before any
    command; any other list is accepted whatever its length, the angle
    being its first value, the origin the next three at most and the
    direction the three after (missing ones left out, extra ones ignored). *)
Theorem rotate_volume_run (e : entry) (tr : list (string * pyval)) (rs : list pyval)
    (vols : list string) (w : world) :
  transforms e = Some tr -> dict_get "rotate" tr = Some (PList rs) -> volumes e = Some vols ->
  rotate_volume e w =
  match rs with
  | [] => (inr PyIndexError, w)
  | r0 :: rest =>
      (inl tt, append_log w
         [("rotate volume " ++ join " " vols ++ "  angle " ++ py_str r0 ++ " about origin "
           ++ join " " (map py_str (firstn 3 rest)) ++ " direction "
           ++ join " " (map py_str (firstn 3 (skipn 3 rest))))%string])
  end.
Proof.
  intros Htr Hr Hv.
  unfold rotate_volume, transform_value, get_volumes, iter_of, index.
  cbv [bind lift_opt ret raise cmd]. rewrite Htr, Hr, Hv. cbn [py_iter].
  destruct rs as [|r0 rest]; [reflexivity|].
  assert (H1 : skipn 1 (map py_str (r0 :: rest)) = map py_str rest) by reflexivity.
  assert (H4 : skipn 4 (map py_str (r0 :: rest)) = map py_str (skipn 3 rest))
    by (change (skipn 3 (map py_str rest) = map py_str (skipn 3 rest)); apply skipn_map).
  rewrite H1, H4, !firstn_map. reflexivity.
Qed.

Lemma rotate_volume_run_witness :
  let tr := [("rotate", PList [PInt 90])] in
  let e := {| cad_filename := "part.stp"; material_tag := None; tet_mesh := None;
              transforms := Some tr; surface_reflectivity := None; volumes := Some ["1"] |} in
  transforms e = Some tr /\ dict_get "rotate" tr = Some (PList [PInt 90]) /\
  volumes e = Some ["1"] /\
  rotate_volume e fresh_world =
  (inl tt, append_log fresh_world ["rotate volume 1  angle 90 about origin  direction "]).
Proof.
  intros tr e. split; [reflexivity|]. split; [reflexivity|]. split; [reflexivity|].
  rewrite (rotate_volume_run e tr [PInt 90] ["1"] fresh_world eq_refl eq_refl eq_refl).
  vm_compute. reflexivity.
Defined.

Lemma zdict_get_nodup {V} (k : Z) (v : V) (d : list (Z * V)) :
  NoDup (zdict_keys d) -> In (k, v) d -> zdict_get k d = Some v.
Proof.
  induction d as [|[k' v'] d IH]; simpl; [contradiction|].
  intros Hnd Hin. inversion Hnd as [|? ? Hnotin Hnd']; subst.
  destruct Hin as [Heq|Hin].
  - inversion Heq; subst. rewrite Z.eqb_refl. reflexivity.
  - destruct (Z.eqb_spec k k') as [->|_].
    + exfalso. apply Hnotin. unfold zdict_keys. apply (in_map fst) in Hin. exact Hin.
    + exact (IH Hnd' Hin).
Qed.

(** Once a visited key is a stale reflector, the pruning pass raises at its
    next step. *)
Lemma prune_stale_raises (live ks : list Z) (d : srecord) (w : world) :
  (forall k, In k ks -> exists b, zdict_get k d = Some b) ->
  (exists k, In k ks /\ zdict_get k d = Some true /\ zmem k live = false) ->
  prune_stale live (length d) ks d w = (inr PyRuntimeError, w).
Proof.
  intros Hks Hst. revert w. induction ks as [|k ks IH]; intros w.
  - destruct Hst as [k [[] _]].
  - simpl. rewrite Nat.eqb_refl. simpl.
    destruct (Hks k (or_introl eq_refl)) as [b Hb].
    unfold bind, lift_opt. rewrite Hb. unfold ret.
    destruct (b && negb (zmem k live)) eqn:Hs.
    + destruct b; [|discriminate].
      destruct ks as [|k2 ks']; simpl;
        rewrite <- (zdict_get_del_length k d true Hb);
        rewrite (proj2 (Nat.eqb_neq _ _) (Nat.neq_succ_diag_r _)); reflexivity.
    + apply IH.
      * intros k' Hk'. apply Hks. right. exact Hk'.
      * destruct Hst as [k' [[<-|Hin] [Hget Hlive]]].
        -- rewrite Hb in Hget. inversion Hget; subst b. rewrite Hlive in Hs. discriminate.
        -- exists k'. auto.
Qed.

(** A reflector the record keeps for a surface that is no longer live makes
    the reconciliation raise RuntimeError (the record is modified while its
    keys are iterated), before any command. *)
Theorem reconcile_wedge_stale_reflector_raises (E : env) (name : string) (e : entry)
    (d : srecord) (vols : list string) (k : Z) (w : world) :
  volumes e = Some vols -> NoDup (zdict_keys d) -> In (k, true) d ->
  ~ In k (parse_cubit_list E "surface" (" in volume " ++ join " " vols) (w_log w)) ->
  reconcile_wedge E name e d w = (inr PyRuntimeError, w).
Proof.
  intros Hv Hnd Hin Hlive. unfold reconcile_wedge, bind at 1, get_volumes. rewrite Hv.
  unfold lift_opt, ret at 1. unfold bind at 1, parse. unfold bind at 1.
  rewrite prune_stale_raises; [reflexivity| |].
  - intros k' Hk'. apply zdict_get_of_keys. exact Hk'.
  - exists k. split; [unfold zdict_keys; apply (in_map fst) in Hin; exact Hin|].
    split; [exact (zdict_get_nodup k true d Hnd Hin)|].
    apply not_true_iff_false. intros H. apply zmem_true in H. contradiction.
Qed.

Lemma reconcile_wedge_stale_reflector_raises_witness :
  volumes (wedge_entry [(7%Z, true)]) = Some ["1"] /\ NoDup (zdict_keys [(7%Z, true)]) /\
  In (7%Z, true) [(7%Z, true)] /\
  ~ In 7%Z (parse_cubit_list one_volume_kernel "surface" (" in volume " ++ join " " ["1"])
              (w_log (append_log fresh_world ["import step"]))) /\
  reconcile_wedge one_volume_kernel "reflective" (wedge_entry [(7%Z, true)]) [(7%Z, true)]
    (append_log fresh_world ["import step"])
  = (inr PyRuntimeError, append_log fresh_world ["import step"]).
Proof.
  assert (H1 : NoDup (zdict_keys [(7%Z, true)])) by (constructor; [intros [] | constructor]).
  assert (H2 : In (7%Z, true) [(7%Z, true)]) by (left; reflexivity).
  assert (H3 : ~ In 7%Z (parse_cubit_list one_volume_kernel "surface"
                           (" in volume " ++ join " " ["1"])
                           (w_log (append_log fresh_world ["import step"]))))
    by (vm_compute; intros [H|[H|[H|[]]]]; discriminate).
  split; [reflexivity|]. split; [exact H1|]. split; [exact H2|]. split; [exact H3|].
  exact (reconcile_wedge_stale_reflector_raises one_volume_kernel "reflective"
           (wedge_entry [(7%Z, true)]) [(7%Z, true)] ["1"] 7%Z
           (append_log fresh_world ["import step"]) eq_refl H1 H2 H3).
Defined.

Lemma cmd_append_log (s : string) (w : world) : cmd s w = (inl tt, append_log w [s]).
Proof. reflexivity. Qed.

(** The adding pass on distinct live surfaces: the live surfaces without a
    record, in order, are appended as reflectors, each with its two
    commands. *)
Lemma add_new_surfaces_run (name : string) (live : list Z) (d : srecord) (w : world) :
  NoDup live ->
  let new := filter (fun s => negb (zmem s (zdict_keys d))) live in
  add_new_surfaces name live d w =
  (inl (d ++ map (fun s => (s, true)) new),
   append_log w (flat_map (fun s => [("group " ++ dq ++ name ++ dq ++ " add surf " ++ Z_str s)%string;
                                     ("surface " ++ Z_str s ++ " visibility on")%string]) new)).
Proof.
  intros Hnd. revert d w. induction Hnd as [|k live Hk Hnd IH]; intros d w new.
  - simpl. rewrite app_nil_r, append_log_nil. reflexivity.
  - unfold new. cbn [add_new_surfaces filter].
    destruct (zmem k (zdict_keys d)) eqn:Hmem; cbn [negb].
    + apply IH.
    + unfold bind at 1. rewrite cmd_append_log. unfold bind at 1. rewrite cmd_append_log.
      rewrite IH. rewrite !append_log_app.
      assert (Hf : filter (fun s => negb (zmem s (zdict_keys (d ++ [(k, true)])))) live
                   = filter (fun s => negb (zmem s (zdict_keys d))) live).
      { apply filter_ext_in. intros s Hs. unfold zdict_keys. rewrite map_app.
        unfold zmem. rewrite existsb_app. simpl.
        destruct (Z.eqb_spec s k) as [->|_]; [contradiction|].
        rewrite orb_false_r. reflexivity. }
      rewrite Hf. rewrite <- app_assoc. reflexivity.
Qed.

(** When every reflector of the record is still live, the reconciliation
    keeps the whole record, including entries for vanished non-reflecting
    surfaces, and appends every live surface without a record as a
    reflector, planar or not, sending its group and visibility commands. *)
Theorem reconcile_wedge_adds_new_live_surfaces (E : env) (name : string) (e : entry)
    (d : srecord) (vols : list string) (w : world) :
  volumes e = Some vols ->
  let live := parse_cubit_list E "surface" (" in volume " ++ join " " vols) (w_log w) in
  NoDup live ->
  (forall k, zdict_get k d = Some true -> In k live) ->
  let new := filter (fun s => negb (zmem s (zdict_keys d))) live in
  reconcile_wedge E name e d w =
  (inl (d ++ map (fun s => (s, true)) new, join " " vols),
   append_log w (flat_map (fun s => [("group " ++ dq ++ name ++ dq ++ " add surf " ++ Z_str s)%string;
                                     ("surface " ++ Z_str s ++ " visibility on")%string]) new)).
Proof.
  intros Hv live Hnd Hrefl new. unfold reconcile_wedge, bind at 1, get_volumes. rewrite Hv.
  unfold lift_opt, ret at 1. unfold bind at 1, parse. fold live. unfold bind at 1.
  rewrite prune_stale_noop.
  - unfold bind at 1. rewrite (add_new_surfaces_run name live d w Hnd). reflexivity.
  - intros k Hk. apply zdict_get_of_keys. exact Hk.
  - intros k Hk. apply zmem_true. exact (Hrefl k Hk).
Qed.

Lemma reconcile_wedge_adds_new_live_surfaces_witness :
  volumes (wedge_entry [(1%Z, true)]) = Some ["1"] /\
  NoDup (parse_cubit_list one_volume_kernel "surface" (" in volume " ++ join " " ["1"])
           (w_log fresh_world)) /\
  (forall k, zdict_get k [(1%Z, true)] = Some true ->
     In k (parse_cubit_list one_volume_kernel "surface" (" in volume " ++ join " " ["1"])
             (w_log fresh_world))) /\
  reconcile_wedge one_volume_kernel "reflective" (wedge_entry [(1%Z, true)]) [(1%Z, true)]
    fresh_world =
  (inl ([(1%Z, true); (2%Z, true); (3%Z, true)], "1"),
   append_log fresh_world
     [("group " ++ dq ++ "reflective" ++ dq ++ " add surf 2")%string; "surface 2 visibility on";
      ("group " ++ dq ++ "reflective" ++ dq ++ " add surf 3")%string; "surface 3 visibility on"]).
Proof.
  assert (H1 : NoDup (parse_cubit_list one_volume_kernel "surface"
                        (" in volume " ++ join " " ["1"]) (w_log fresh_world))).
  { vm_compute. repeat constructor; simpl; intuition discriminate. }
  assert (H2 : forall k, zdict_get k [(1%Z, true)] = Some true ->
     In k (parse_cubit_list one_volume_kernel "surface" (" in volume " ++ join " " ["1"])
             (w_log fresh_world))).
  { intros k Hk. cbn [zdict_get] in Hk. destruct (Z.eqb k 1) eqn:E1; [|discriminate].
    apply Z.eqb_eq in E1. subst k. vm_compute. left. reflexivity. }
  split; [reflexivity|]. split; [exact H1|]. split; [exact H2|].
  rewrite (reconcile_wedge_adds_new_live_surfaces one_volume_kernel "reflective"
             (wedge_entry [(1%Z, true)]) [(1%Z, true)] ["1"] fresh_world eq_refl H1 H2).
  vm_compute. reflexivity.
Defined.

Lemma find_reflecting_skip_run (E : env) (pre rest : list entry) (name : string) (verbose : bool)
    (w : world) :
  Forall (fun x => surface_reflectivity x = None) pre ->
  find_reflecting_surfaces_of_reflecting_wedge E (pre ++ rest) name verbose w =
  match find_reflecting_surfaces_of_reflecting_wedge E rest name verbose w with
  | (inl (rest', wv), w') => (inl (pre ++ rest', wv), w')
  | (inr x, w') => (inr x, w')
  end.
Proof.
  intros Hpre. induction Hpre as [|x pre Hx Hpre IH].
  - simpl. destruct (find_reflecting_surfaces_of_reflecting_wedge E rest name verbose w)
      as [[[rest' wv]|x] w']; reflexivity.
  - cbn [app find_reflecting_surfaces_of_reflecting_wedge]. rewrite Hx.
    unfold bind at 1. rewrite IH.
    destruct (find_reflecting_surfaces_of_reflecting_wedge E rest name verbose w)
      as [[[rest' wv]|y] w']; reflexivity.
Qed.

(** Only the first entry with a [surface_reflectivity] record is
    reconciled: the entries before it are returned unchanged, and those after
    it are neither read nor changed, even when they have a record too. *)
Theorem find_reflecting_first_wedge_only (E : env) (pre post : list entry) (e : entry)
    (d : srecord) (name : string) (verbose : bool) (w : world) :
  Forall (fun x => surface_reflectivity x = None) pre -> surface_reflectivity e = Some d ->
  find_reflecting_surfaces_of_reflecting_wedge E (pre ++ e :: post) name verbose w =
  match reconcile_wedge E name e d w with
  | (inl (d2, wv), w') => (inl (pre ++ set_surface_reflectivity e d2 :: post, Some wv), w')
  | (inr x, w') => (inr x, w')
  end.
Proof.
  intros Hpre He. rewrite (find_reflecting_skip_run E pre (e :: post) name verbose w Hpre).
  cbn [find_reflecting_surfaces_of_reflecting_wedge]. rewrite He. unfold bind.
  destruct (reconcile_wedge E name e d w) as [[[d2 wv]|x] w']; reflexivity.
Qed.

Lemma find_reflecting_first_wedge_only_witness :
  Forall (fun x => surface_reflectivity x = None) [tagged_entry "steel" ["1"]] /\
  surface_reflectivity (wedge_entry [(7%Z, true)]) = Some [(7%Z, true)] /\
  fst (find_reflecting_surfaces_of_reflecting_wedge one_volume_kernel
         ([tagged_entry "steel" ["1"]] ++ [wedge_entry [(7%Z, true)]; wedge_entry []]) "reflective"
         true fresh_world) = inr PyRuntimeError.
Proof.
  assert (H : Forall (fun x => surface_reflectivity x = None) [tagged_entry "steel" ["1"]])
    by (constructor; [reflexivity | constructor]).
  split; [exact H|]. split; [reflexivity|].
  rewrite (find_reflecting_first_wedge_only one_volume_kernel [tagged_entry "steel" ["1"]]
             [wedge_entry []] (wedge_entry [(7%Z, true)]) [(7%Z, true)] "reflective" true
             fresh_world H eq_refl).
  vm_compute. reflexivity.
Defined.

(** Without any entry holding a record, the search changes nothing, sends no
    command and reports no wedge volume. *)
Theorem find_reflecting_no_wedge (E : env) (gd : list entry) (name : string) (verbose : bool)
    (w : world) :
  Forall (fun x => surface_reflectivity x = None) gd ->
  find_reflecting_surfaces_of_reflecting_wedge E gd name verbose w = (inl (gd, None), w).
Proof.
  intros H. rewrite <- (app_nil_r gd).
  rewrite (find_reflecting_skip_run E gd [] name verbose w H). reflexivity.
Qed.

Lemma find_reflecting_no_wedge_witness :
  Forall (fun x => surface_reflectivity x = None) [tagged_entry "steel" ["1"]] /\
  find_reflecting_surfaces_of_reflecting_wedge one_volume_kernel [tagged_entry "steel" ["1"]]
    "reflective" true fresh_world = (inl ([tagged_entry "steel" ["1"]], None), fresh_world).
Proof.
  assert (H : Forall (fun x => surface_reflectivity x = None) [tagged_entry "steel" ["1"]])
    by (constructor; [reflexivity | constructor]).
  split; [exact H|].
  exact (find_reflecting_no_wedge one_volume_kernel [tagged_entry "steel" ["1"]] "reflective"
           true fresh_world H).
Defined.




Lemma load_entry_ok_shape (E : env) (verbose : bool) (e e' : entry) (av : list Z) (w w' : world) :
  load_entry E verbose e w = (inl (e', av), w') ->
  surface_reflectivity e = None /\
  exists ty vs us,
    e' = set_volumes e vs /\ (ty = "step" \/ ty = "acis") /\
    (us = [] \/ exists s, us = [s] /\ material_tag e <> None /\ exists rest, s = ("unite vol " ++ rest)%string) /\
    w_log w' = w_log w
               ++ [("import " ++ ty ++ " " ++ dq ++ cad_filename e ++ dq
                    ++ " separate_bodies no_surfaces no_curves no_vertices ")%string;
                   "healer autoheal vol all"]
               ++ us
               ++ [("group " ++ dq ++ basename (cad_filename e) ++ dq ++ " add volume "
                    ++ join " " vs)%string].
Proof.
  intros H.
  assert (Hsr : surface_reflectivity e = None).
  { destruct (surface_reflectivity e) eqn:Hs; [|reflexivity].
    exfalso. exact (load_entry_reflectivity_never_ok E verbose e ltac:(congruence) w _ _ H). }
  split; [exact Hsr|].
  unfold load_entry in H.
  repeat (apply bind_inl_inv in H; destruct H as [? [? [? H]]]).
  change (surface_reflectivity (set_volumes e ?vs)) with (surface_reflectivity e) in H.
  rewrite Hsr in H. cbv [ret] in H. inversion H; subst; clear H.
  exists x1.
  assert (Hty : x1 = "step" \/ x1 = "acis").
  { destruct (ends_with ".stp" (cad_filename e) || ends_with ".step" (cad_filename e));
      [| destruct (ends_with ".sat" (cad_filename e))];
      cbv [ret raise] in H1; inversion H1; tauto. }
  assert (Hx2 : x2 = x0).
  { destruct (ends_with ".stp" (cad_filename e) || ends_with ".step" (cad_filename e));
      [| destruct (ends_with ".sat" (cad_filename e))];
      cbv [ret raise] in H1; inversion H1; reflexivity. }
  assert (Hx4 : x4 = x2).
  { destruct (is_file E (cad_filename e)); cbv [ret raise] in H2; inversion H2; reflexivity. }
  clear H1 H2. subst x2 x4.
  eexists.
  unfold when in H6.
  match type of H6 with (if ?b then _ else _) _ = _ => destruct b eqn:Hu end;
  [ exists [("unite vol " ++ join " " (map Z_str (symmetric_difference E x x9)) ++ " with vol "
             ++ join " " (map Z_str (symmetric_difference E x x9)))%string]
  | exists [] ];
  unfold cmd, parse, ret in *;
  repeat match goal with
         | H : (inl _, _) = (inl _, _) |- _ => inversion H; subst; clear H
         end;
  (split; [reflexivity|]); (split; [exact Hty|]).
  - split.
    + right. eexists. split; [reflexivity|]. split; [|eexists; reflexivity].
      destruct (material_tag e); [discriminate|]. cbn [andb] in Hu. discriminate Hu.
    + cbn [w_log]. rewrite <- !app_assoc. reflexivity.
  - split; [left; reflexivity|]. cbn [w_log]. rewrite <- !app_assoc. reflexivity.
Qed.

(** A load iteration that returns: the entry had no reflectivity record,
    only its [volumes] key is set, and it sent the import, the heal, at most
    one unite (never for an entry without a material tag), and the group
    command, in this order. *)
Theorem load_entry_ok (E : env) (verbose : bool) (e e' : entry) (av : list Z) (w w' : world) :
  load_entry E verbose e w = (inl (e', av), w') ->
  surface_reflectivity e = None /\
  exists ty vs us,
    e' = set_volumes e vs /\ (ty = "step" \/ ty = "acis") /\
    (us = [] \/ exists s, us = [s] /\ material_tag e <> None /\ exists rest, s = ("unite vol " ++ rest)%string) /\
    w_log w' = w_log w
               ++ [("import " ++ ty ++ " " ++ dq ++ cad_filename e ++ dq
                    ++ " separate_bodies no_surfaces no_curves no_vertices ")%string;
                   "healer autoheal vol all"]
               ++ us
               ++ [("group " ++ dq ++ basename (cad_filename e) ++ dq ++ " add volume "
                    ++ join " " vs)%string].
Proof. exact (load_entry_ok_shape E verbose e e' av w w'). Qed.

Lemma load_entry_ok_witness :
  let e := plain_entry "part.stp" in
  let run := load_entry one_volume_kernel false e fresh_world in
  fst run = inl (set_volumes e ["2"], [2%Z]) /\
  surface_reflectivity e = None /\
  exists ty vs us,
    set_volumes e ["2"] = set_volumes e vs /\ (ty = "step" \/ ty = "acis") /\
    (us = [] \/ exists s, us = [s] /\ material_tag e <> None /\ exists rest, s = ("unite vol " ++ rest)%string) /\
    w_log (snd run) = w_log fresh_world
               ++ [("import " ++ ty ++ " " ++ dq ++ cad_filename e ++ dq
                    ++ " separate_bodies no_surfaces no_curves no_vertices ")%string;
                   "healer autoheal vol all"]
               ++ us
               ++ [("group " ++ dq ++ basename (cad_filename e) ++ dq ++ " add volume "
                    ++ join " " vs)%string].
Proof.
  intros e run.
  assert (H : run = (inl (set_volumes e ["2"], [2%Z]), snd run)) by (vm_compute; reflexivity).
  split; [rewrite H; reflexivity|].
  exact (load_entry_ok one_volume_kernel false e _ _ fresh_world (snd run) H).
Defined.

Lemma load_loop_ok (E : env) (verbose : bool) (es : list entry) :
  forall av es' av' w w',
  load_loop E verbose es av w = (inl (es', av'), w') ->
  Forall2 (fun e e' => surface_reflectivity e = None /\ exists vs, e' = set_volumes e vs) es es'.
Proof.
  induction es as [|e es IH]; intros av es' av' w w' H.
  - cbn in H. inversion H; subst. constructor.
  - cbn [load_loop] in H.
    apply bind_inl_inv in H. destruct H as [[e1 av1] [w1 [H1 H]]].
    apply bind_inl_inv in H. destruct H as [[es1 av2] [w2 [H2 H]]].
    cbv [ret] in H. inversion H; subst; clear H.
    destruct (load_entry_ok_shape E verbose e e1 av1 w w1 H1) as [Hsr [ty [vs [us [He _]]]]].
    constructor; [split; [exact Hsr | exists vs; exact He] | exact (IH _ _ _ _ _ H2)].
Qed.

(** A load that returns gives back the list of entries in order, each one
    unchanged apart from its [volumes] key, and none of them carried a
    [surface_reflectivity] record. *)
Theorem find_number_of_volumes_sets_volumes (E : env) (es : list entry) (verbose : bool)
  (es' : list entry) (total : Z) (w w' : world) :
  find_number_of_volumes_in_each_step_file E es verbose w = (inl (es', total), w') ->
  Forall2 (fun e e' => surface_reflectivity e = None /\ exists vs, e' = set_volumes e vs) es es'.
Proof.
  intros H. unfold find_number_of_volumes_in_each_step_file in H.
  apply bind_inl_inv in H. destruct H as [[es1 av] [w1 [H1 H]]].
  repeat (apply bind_inl_inv in H; destruct H as [? [? [? H]]]).
  cbv [ret] in H. inversion H; subst; clear H.
  exact (load_loop_ok E verbose es None es' av w w1 H1).
Qed.

Lemma find_number_of_volumes_sets_volumes_witness :
  let es := [plain_entry "a.stp"; plain_entry "b.step"] in
  let run := find_number_of_volumes_in_each_step_file one_volume_kernel es false fresh_world in
  fst run = inl ([set_volumes (plain_entry "a.stp") ["2"]; set_volumes (plain_entry "b.step") []], 2%Z) /\
  Forall2 (fun e e' => surface_reflectivity e = None /\ exists vs, e' = set_volumes e vs)
    es [set_volumes (plain_entry "a.stp") ["2"]; set_volumes (plain_entry "b.step") []].
Proof.
  intros es run.
  assert (H : run = (inl ([set_volumes (plain_entry "a.stp") ["2"];
                           set_volumes (plain_entry "b.step") []], 2%Z), snd run))
    by (vm_compute; reflexivity).
  split; [rewrite H; reflexivity|].
  exact (find_number_of_volumes_sets_volumes one_volume_kernel es false _ 2%Z fresh_world (snd run) H).
Defined.
